(** * quantaflux: the risk engine and the multi-source collector

    A shallow embedding of [internal/risk/risk.go] and
    [internal/data/collector/collector.go].

    Go's [float64] is Rocq's primitive binary64 [float]: the arithmetic of
    the model ([+], [*], [<?], [<=?]) is IEEE 754 arithmetic, the one the
    Go program runs (without fused multiply-add).  Go's [a > b] is written
    [b <? a].  A Go [(value, error)] result is a pair of options, [None]
    being [nil]; an [error] is its message.  [time.Time] and
    [time.Duration] are integers counting nanoseconds. *)

From Stdlib Require Import Floats ZArith Lia List Permutation.
From stdpp Require Import base gmap strings list.

Set Warnings "-inexact-float".

Local Open Scope string_scope.
Local Open Scope Z_scope.

(** ** Go values shared by both packages *)

Definition error : Type := string.
Definition Time : Type := Z.
Definition Duration : Type := Z.


(** ** binary64 numbers *)

Module Float64.

Definition is_nan (x : float) : Prop := Prim2SF x = S754_nan.

End Float64.

(** ** internal/trading: the order the risk engine reads *)

Module Trading.

Record Order : Type := mkOrder {
  Symbol : string;
  Side : string;
  Amount : float;
  Price : float;
  OrderType : string;
  Status : string;
  OrderID : string;
  RawOrderID : Z
}.

End Trading.

(** ** internal/risk *)

Module Risk.

Import Trading.

Record RiskParameters : Type := mkRiskParameters {
  MaxPositionSize : float;
  MaxLossPerTrade : float;
  MaxDailyLoss : float;
  MaxLeverage : float;
  MinLiquidity : float
}.

Record RiskAssessment : Type := mkRiskAssessment {
  IsAcceptable : bool;
  RiskLevel : float;
  RiskFactors : list string;
  Recommendations : list string
}.

Record RiskAlert : Type := mkRiskAlert {
  AlertSymbol : string;
  AlertType : string;
  Severity : string;
  Description : string;
  Timestamp : Time
}.

(** The anonymous struct of the field [dailyStats]. *)
Record DailyStats : Type := mkDailyStats {
  totalLoss : float;
  tradingVolume : float;
  tradeCount : Z
}.

(** [paramsMu] has no field here: the functions below are the bodies the
    lock makes atomic, run one after the other. *)
Record BasicRiskManager : Type := mkBasicRiskManager {
  params : RiskParameters;
  dailyStats : DailyStats;
  statsReset : Time
}.

Record Position : Type := mkPosition {
  PosSymbol : string;
  UnrealizedPnL : float
}.

(** Go's zero value of the statistics. *)
Definition zeroStats : DailyStats :=
  {| totalLoss := 0%float; tradingVolume := 0%float; tradeCount := 0 |}.

(** [now] is the value [time.Now()] returns in the constructor. *)
Definition NewBasicRiskManager (initialParams : RiskParameters) (now : Time)
  : BasicRiskManager :=
  {| params := initialParams; dailyStats := zeroStats; statsReset := now |}.

(** The texts of the six risk factors. *)
Definition factorPositionSize : string :=
  "Position size exceeds maximum allowed".
Definition factorTradeLoss : string :=
  "Potential loss exceeds maximum allowed per trade".
Definition factorDailyLoss : string :=
  "Trade could exceed maximum daily loss limit".
Definition factorMarketOrder : string :=
  "Market order may result in slippage".
Definition factorVolume : string :=
  "Daily trading volume would exceed safe limits".
Definition factorFrequency : string :=
  "High trading frequency detected".

Definition errInvalidParameters : error :=
  "invalid risk parameters: all values must be positive".

Section CheckTradeRisk.

(** [fmt.Sprintf] with the verb [%.2f], from Go's library. *)
Variable FormatFloat2 : float -> string.

(** Lines 45-64: the position size, and the loss of the trade in the
    [else] branch only. *)
Definition checkPositionSize (params : RiskParameters) (order : Order)
    (orderValue : float) (assessment : RiskAssessment) : RiskAssessment :=
  if (MaxPositionSize params <? orderValue)%float then
    {| IsAcceptable := false;
       RiskLevel := (RiskLevel assessment + 0.3)%float;
       RiskFactors := RiskFactors assessment ++ [factorPositionSize];
       Recommendations := Recommendations assessment ++
         [String.append "Reduce position size below "
            (FormatFloat2 (MaxPositionSize params))] |}
  else
    let potentialLoss := (orderValue * 0.1)%float in
    if String.eqb (Side order) "buy"
       && (MaxLossPerTrade params <? potentialLoss)%float then
      {| IsAcceptable := false;
         RiskLevel := (RiskLevel assessment + 0.25)%float;
         RiskFactors := RiskFactors assessment ++ [factorTradeLoss];
         Recommendations := Recommendations assessment ++
           [String.append
              "Reduce position size to limit potential loss below "
              (FormatFloat2 (MaxLossPerTrade params))] |}
    else assessment.

(** Lines 66-74. *)
Definition checkDailyLoss (rm : BasicRiskManager) (params : RiskParameters)
    (orderValue : float) (assessment : RiskAssessment) : RiskAssessment :=
  if (MaxDailyLoss params <?
        totalLoss (dailyStats rm) + orderValue * 0.1)%float then
    {| IsAcceptable := false;
       RiskLevel := (RiskLevel assessment + 0.25)%float;
       RiskFactors := RiskFactors assessment ++ [factorDailyLoss];
       Recommendations := Recommendations assessment ++
         ["Wait for daily loss limit to reset or reduce position size"] |}
  else assessment.

(** Lines 76-83. *)
Definition checkMarketOrder (order : Order) (assessment : RiskAssessment)
  : RiskAssessment :=
  if String.eqb (OrderType order) "market" then
    {| IsAcceptable := IsAcceptable assessment;
       RiskLevel := (RiskLevel assessment + 0.1)%float;
       RiskFactors := RiskFactors assessment ++ [factorMarketOrder];
       Recommendations := Recommendations assessment ++
         ["Consider using limit order for better price control"] |}
  else assessment.

(** Lines 85-93. *)
Definition checkVolume (rm : BasicRiskManager) (params : RiskParameters)
    (orderValue : float) (assessment : RiskAssessment) : RiskAssessment :=
  if (MaxPositionSize params * 5 <?
        tradingVolume (dailyStats rm) + orderValue)%float then
    {| IsAcceptable := false;
       RiskLevel := (RiskLevel assessment + 0.2)%float;
       RiskFactors := RiskFactors assessment ++ [factorVolume];
       Recommendations := Recommendations assessment ++
         ["Reduce trading volume or wait for daily reset"] |}
  else assessment.

(** Lines 95-102. *)
Definition checkFrequency (rm : BasicRiskManager)
    (assessment : RiskAssessment) : RiskAssessment :=
  if 100 <? tradeCount (dailyStats rm) then
    {| IsAcceptable := IsAcceptable assessment;
       RiskLevel := (RiskLevel assessment + 0.15)%float;
       RiskFactors := RiskFactors assessment ++ [factorFrequency];
       Recommendations := Recommendations assessment ++
         ["Consider reducing trading frequency"] |}
  else assessment.

(** The assessment every evaluation starts from (lines 35-40). *)
Definition freshAssessment : RiskAssessment :=
  {| IsAcceptable := true; RiskLevel := 0%float;
     RiskFactors := []; Recommendations := [] |}.

(** Lines 66-102, the four checks after the first [if]. *)
Definition laterChecks (rm : BasicRiskManager) (params : RiskParameters)
    (order : Order) (orderValue : float) (assessment : RiskAssessment)
  : RiskAssessment :=
  let assessment := checkDailyLoss rm params orderValue assessment in
  let assessment := checkMarketOrder order assessment in
  let assessment := checkVolume rm params orderValue assessment in
  checkFrequency rm assessment.

(** [CheckTradeRisk]: the manager is read, never written; [ctx] is not
    used by the body. *)
Definition CheckTradeRisk (rm : BasicRiskManager) (order : Order)
  : option RiskAssessment * option error :=
  let params := params rm in
  let assessment := freshAssessment in
  let orderValue := (Amount order * Price order)%float in
  let assessment := checkPositionSize params order orderValue assessment in
  let assessment := laterChecks rm params order orderValue assessment in
  (Some assessment, None).

End CheckTradeRisk.

(** Whether each of the six checks fires, as the conditions of the source
    read. *)
Definition orderValueOf (order : Order) : float :=
  (Amount order * Price order)%float.

Definition firesPositionSize (rm : BasicRiskManager) (order : Order) : bool :=
  (MaxPositionSize (params rm) <? orderValueOf order)%float.

Definition firesTradeLoss (rm : BasicRiskManager) (order : Order) : bool :=
  negb (firesPositionSize rm order)
  && (String.eqb (Side order) "buy"
      && (MaxLossPerTrade (params rm) <? orderValueOf order * 0.1)%float).

Definition firesDailyLoss (rm : BasicRiskManager) (order : Order) : bool :=
  (MaxDailyLoss (params rm) <?
     totalLoss (dailyStats rm) + orderValueOf order * 0.1)%float.

Definition firesMarketOrder (order : Order) : bool :=
  String.eqb (OrderType order) "market".

Definition firesVolume (rm : BasicRiskManager) (order : Order) : bool :=
  (MaxPositionSize (params rm) * 5 <?
     tradingVolume (dailyStats rm) + orderValueOf order)%float.

Definition firesFrequency (rm : BasicRiskManager) : bool :=
  100 <? tradeCount (dailyStats rm).

Definition firedChecks (rm : BasicRiskManager) (order : Order) : list bool :=
  [firesPositionSize rm order; firesTradeLoss rm order;
   firesDailyLoss rm order; firesMarketOrder order;
   firesVolume rm order; firesFrequency rm].

Definition countFired (rm : BasicRiskManager) (order : Order) : nat :=
  length (filter (fun b : bool => b = true) (firedChecks rm order)).

(** [SetRiskParameters]: the new manager and the error. *)
Definition SetRiskParameters (rm : BasicRiskManager) (p : RiskParameters)
  : BasicRiskManager * option error :=
  if (MaxPositionSize p <=? 0)%float || (MaxLossPerTrade p <=? 0)%float
     || (MaxDailyLoss p <=? 0)%float || (MaxLeverage p <=? 0)%float
     || (MinLiquidity p <=? 0)%float
  then (rm, Some errInvalidParameters)
  else ({| params := p; dailyStats := dailyStats rm;
           statsReset := statsReset rm |}, None).

Definition getSeverityLevel (pnl : float) : string :=
  if (pnl <? -10000)%float then "HIGH"
  else if (pnl <? -5000)%float then "MEDIUM"
  else "LOW".

(** *** The monitor (lines 120-169)

    The goroutine of [MonitorPositions] is a loop around a [select] over
    three channels.  Its model is a step function over the event that the
    [select] takes; which event comes when is decided by the two tickers,
    created when the goroutine starts. *)

(** [time.Ticker]: created at [tickerStart], it sends on its channel once
    every [tickerPeriod]. *)
Record Ticker : Type := mkTicker {
  tickerStart : Time;
  tickerPeriod : Duration
}.



(** The state of one monitor goroutine: the buffered channel [alerts]
    (capacity 100), whether it was closed, and the two tickers. *)
Record Monitor : Type := mkMonitor {
  alerts : list RiskAlert;
  closed : bool;
  ticker : Ticker;
  dayReset : Ticker
}.

Inductive Event : Type :=
| CtxDone
| DayResetTick (now : Time)
| PollTick (now : Time).

(** Lines 177-180. *)
Definition getCurrentPositions (rm : BasicRiskManager) : list Position := [].

(** The [select] with a [default] of lines 157-161: a send that does not
    block, the alert is dropped when the buffer is full. *)
Definition trySend (buffer : list RiskAlert) (alert : RiskAlert)
  : list RiskAlert :=
  if (Z.of_nat (length buffer) <? 100) then buffer ++ [alert] else buffer.

(** The body of the loop over the positions (lines 148-162). *)
Definition checkPosition (rm : BasicRiskManager) (now : Time)
    (buffer : list RiskAlert) (pos : Position) : list RiskAlert :=
  if (UnrealizedPnL pos <? - MaxLossPerTrade (params rm))%float then
    trySend buffer
      {| AlertSymbol := PosSymbol pos;
         AlertType := "Position Loss";
         Severity := getSeverityLevel (UnrealizedPnL pos);
         Description :=
           String.append "Position loss exceeded threshold for "
             (PosSymbol pos);
         Timestamp := now |}
  else buffer.

(** The case [<-dayReset.C] (lines 137-143), one step under the lock. *)
Definition resetDailyStats (rm : BasicRiskManager) (now : Time)
  : BasicRiskManager :=
  {| params := params rm; dailyStats := zeroStats; statsReset := now |}.

(** One turn of the loop on a monitor that runs. *)
Definition monitorStep (rm : BasicRiskManager) (m : Monitor) (ev : Event)
  : BasicRiskManager * Monitor :=
  match ev with
  | CtxDone =>
      (rm, {| alerts := alerts m; closed := true;
              ticker := ticker m; dayReset := dayReset m |})
  | DayResetTick now => (resetDailyStats rm now, m)
  | PollTick now =>
      let positions := getCurrentPositions rm in
      (rm, {| alerts :=
                fold_left (checkPosition rm now) positions (alerts m);
              closed := closed m;
              ticker := ticker m; dayReset := dayReset m |})
  end.

(** The loop: it returns at [ctx.Done()], and the deferred [close] has
    marked the channel. *)
Fixpoint monitorLoop (rm : BasicRiskManager) (m : Monitor)
    (events : list Event) : BasicRiskManager * Monitor :=
  match events with
  | [] => (rm, m)
  | ev :: rest =>
      let '(rm', m') := monitorStep rm m ev in
      if closed m' then (rm', m') else monitorLoop rm' m' rest
  end.





End Risk.

(** ** The terms in which the risk engine is specified *)

Module RiskTerms.

Import Trading Risk.

(** The manager after a successful replacement of its parameters. *)
Definition withParams (rm : BasicRiskManager) (p : RiskParameters)
  : BasicRiskManager :=
  {| params := p; dailyStats := dailyStats rm; statsReset := statsReset rm |}.

Definition someFieldNotPositive (p : RiskParameters) : Prop :=
  (MaxPositionSize p <=? 0)%float = true \/
  (MaxLossPerTrade p <=? 0)%float = true \/
  (MaxDailyLoss p <=? 0)%float = true \/
  (MaxLeverage p <=? 0)%float = true \/
  (MinLiquidity p <=? 0)%float = true.

Definition allFieldsPositive (p : RiskParameters) : Prop :=
  (0 <? MaxPositionSize p)%float = true /\
  (0 <? MaxLossPerTrade p)%float = true /\
  (0 <? MaxDailyLoss p)%float = true /\
  (0 <? MaxLeverage p)%float = true /\
  (0 <? MinLiquidity p)%float = true.

(** The second condition of line 56, read when the first check passed. *)
Definition lossCondition (rm : BasicRiskManager) (order : Order) : bool :=
  String.eqb (Side order) "buy"
  && (MaxLossPerTrade (params rm) <? orderValueOf order * 0.1)%float.

Section Assessments.

Variable FormatFloat2 : float -> string.

(** The assessment after the first [if] when the position is too large. *)
Definition sizeRejected (p : RiskParameters) : RiskAssessment :=
  {| IsAcceptable := false;
     RiskLevel := (0 + 0.3)%float;
     RiskFactors := [factorPositionSize];
     Recommendations :=
       [String.append "Reduce position size below "
          (FormatFloat2 (MaxPositionSize p))] |}.

(** The assessment after the first [if] when the loss is too large. *)
Definition lossRejected (p : RiskParameters) : RiskAssessment :=
  {| IsAcceptable := false;
     RiskLevel := (0 + 0.25)%float;
     RiskFactors := [factorTradeLoss];
     Recommendations :=
       [String.append "Reduce position size to limit potential loss below "
          (FormatFloat2 (MaxLossPerTrade p))] |}.

End Assessments.

(** One check of the evaluation, as a value: whether it fires, whether it
    rejects the order, and what it records when it fires. *)
Record Check : Type := mkCheck {
  fires : bool;
  rejects : bool;
  weight : float;
  factor : string;
  recommendation : string
}.

Definition applyCheck (a : RiskAssessment) (c : Check) : RiskAssessment :=
  if fires c then
    {| IsAcceptable := if rejects c then false else IsAcceptable a;
       RiskLevel := (RiskLevel a + weight c)%float;
       RiskFactors := RiskFactors a ++ [factor c];
       Recommendations := Recommendations a ++ [recommendation c] |}
  else a.

Definition runChecks (cs : list Check) (a : RiskAssessment) : RiskAssessment :=
  fold_left applyCheck cs a.

Section SixChecks.

Variable FormatFloat2 : float -> string.

(** The six checks of [CheckTradeRisk], in the order of the source. *)
Definition sixChecks (rm : BasicRiskManager) (order : Order) : list Check :=
  [ {| fires := firesPositionSize rm order; rejects := true;
       weight := 0.3; factor := factorPositionSize;
       recommendation :=
         String.append "Reduce position size below "
           (FormatFloat2 (MaxPositionSize (params rm))) |};
    {| fires := firesTradeLoss rm order; rejects := true;
       weight := 0.25; factor := factorTradeLoss;
       recommendation :=
         String.append "Reduce position size to limit potential loss below "
           (FormatFloat2 (MaxLossPerTrade (params rm))) |};
    {| fires := firesDailyLoss rm order; rejects := true;
       weight := 0.25; factor := factorDailyLoss;
       recommendation :=
         "Wait for daily loss limit to reset or reduce position size" |};
    {| fires := firesMarketOrder order; rejects := false;
       weight := 0.1; factor := factorMarketOrder;
       recommendation :=
         "Consider using limit order for better price control" |};
    {| fires := firesVolume rm order; rejects := true;
       weight := 0.2; factor := factorVolume;
       recommendation := "Reduce trading volume or wait for daily reset" |};
    {| fires := firesFrequency rm; rejects := false;
       weight := 0.15; factor := factorFrequency;
       recommendation := "Consider reducing trading frequency" |} ].

End SixChecks.

(** No check fires. *)
Definition noCheckFires (rm : BasicRiskManager) (order : Order) : Prop :=
  Forall (fun b : bool => b = false) (firedChecks rm order).

(** The market-order check fires and no other. *)
Definition onlyMarketFires (rm : BasicRiskManager) (order : Order) : Prop :=
  firedChecks rm order = [false; false; false; true; false; false].

(** The position-size and the market-order checks fire and no other. *)
Definition sizeAndMarketFire (rm : BasicRiskManager) (order : Order) : Prop :=
  firedChecks rm order = [true; false; false; true; false; false].

Definition sampleParams : RiskParameters :=
  {| MaxPositionSize := 10000; MaxLossPerTrade := 1000;
     MaxDailyLoss := 3000; MaxLeverage := 3; MinLiquidity := 5000 |}.

Definition negativeSizeParams : RiskParameters :=
  {| MaxPositionSize := -1000; MaxLossPerTrade := 1000;
     MaxDailyLoss := 3000; MaxLeverage := 3; MinLiquidity := 5000 |}.

Definition zeroParams : RiskParameters :=
  {| MaxPositionSize := 0; MaxLossPerTrade := 0;
     MaxDailyLoss := 0; MaxLeverage := 0; MinLiquidity := 0 |}.

(** The orders of the package's test. *)
Definition testOrder (amount : float) (orderType : string) : Order :=
  {| Symbol := "BTC-USDT"; Side := "buy"; Amount := amount; Price := 1000;
     OrderType := orderType; Status := "new"; OrderID := "";
     RawOrderID := 0 |}.

Definition noFormat (x : float) : string := "".

(** The engine of the package's test, built at time 0. *)
Definition testManager : BasicRiskManager := NewBasicRiskManager sampleParams 0.



End RiskTerms.

(** ** internal/models *)

Module Models.

Record TokenInfo : Type := mkTokenInfo {
  Symbol : string;
  Name : string;
  ContractAddress : string;
  Network : string;
  LaunchType : string;
  LaunchDate : Time;
  InitialPrice : float;
  TotalSupply : float;
  CirculatingSupply : float;
  TeamAllocation : float;
  VestingSchedule : string
}.

Record MarketData : Type := mkMarketData {
  MdSymbol : string;
  MdPrice : float;
  Volume24h : float;
  MarketCap : float;
  PriceChange1h : float;
  PriceChange24h : float;
  MdTimestamp : Time
}.

End Models.

(** ** internal/data/collector *)

Module Collector.

Import Models.

(** A value passed to the logger after the message. *)
Inductive LogField : Type :=
| FieldString (s : string)
| FieldError (e : option error).

(** One call of the [Logger] interface; the log is the list of the calls
    made, oldest first. *)
Inductive LogEntry : Type :=
| LogError (msg : string) (fields : list LogField)
| LogInfo (msg : string) (fields : list LogField).

(** The interface [DataSource].  A method is the function of the symbol it
    is asked for; a pointer result is an option, a [nil] map is the empty
    map. *)
Record DataSource : Type := mkDataSource {
  SourceName : string;
  SourceTokenInfo : string -> option TokenInfo * option error;
  SourceMarketData : string -> option MarketData * option error;
  SourceSocialMetrics : string -> gmap string float * option error
}.

Record MultiSourceCollector : Type := mkMultiSourceCollector {
  sources : list DataSource
}.

Definition NewMultiSourceCollector (sources : list DataSource)
  : MultiSourceCollector :=
  {| sources := sources |}.

Definition errTokenInfo : error :=
  "failed to collect token info from all sources".
Definition errSocialMetrics : error :=
  "failed to collect social metrics from all sources".

(** The loop of [CollectTokenInfo] (lines 42-51) over the sources left. *)
Fixpoint collectTokenInfoFrom (rest : list DataSource) (symbol : string)
    (log : list LogEntry)
  : (option TokenInfo * option error) * list LogEntry :=
  match rest with
  | [] => ((None, Some errTokenInfo), log)
  | source :: rest' =>
      let '(result, err) := SourceTokenInfo source symbol in
      match err, result with
      | None, Some info =>
          ((Some info, None),
           (log ++ [LogInfo "collected token info"
                      [FieldString "source"; FieldString (SourceName source);
                       FieldString "symbol"; FieldString symbol]])%list)
      | _, _ =>
          collectTokenInfoFrom rest' symbol
            (log ++ [LogError "failed to collect token info"
                       [FieldString "source"; FieldString (SourceName source);
                        FieldString "error"; FieldError err]])%list
      end
  end.

Definition CollectTokenInfo (c : MultiSourceCollector) (symbol : string)
    (log : list LogEntry)
  : (option TokenInfo * option error) * list LogEntry :=
  collectTokenInfoFrom (sources c) symbol log.

(** Lines 89-91: every entry of [metrics] is stored into [results]. *)
Definition mergeInto (results metrics : gmap string float)
  : gmap string float :=
  map_fold (fun (k : string) (v : float) (acc : gmap string float) =>
              <[k := v]> acc) results metrics.

(** The goroutine of one source (lines 79-95). The store of its metrics
    is one step, under the mutex. *)
Definition socialWorker (symbol : string)
    (st : gmap string float * list LogEntry) (src : DataSource)
  : gmap string float * list LogEntry :=
  let '(results, log) := st in
  let '(metrics, err) := SourceSocialMetrics src symbol in
  match err with
  | Some e =>
      (results,
       (log ++ [LogError "failed to collect social metrics"
                  [FieldString "source"; FieldString (SourceName src);
                   FieldString "error"; FieldError err]])%list)
  | None =>
      (mergeInto results metrics,
       (log ++ [LogInfo "collected social metrics"
                  [FieldString "source"; FieldString (SourceName src);
                   FieldString "symbol"; FieldString symbol]])%list)
  end.

(** [CollectSocialMetrics] when the goroutines take the mutex in the order
    [order]: any order of the sources can occur. *)
Definition collectSocialMetricsIn (order : list DataSource) (symbol : string)
    (log : list LogEntry)
  : (option (gmap string float) * option error) * list LogEntry :=
  let '(results, log') := fold_left (socialWorker symbol) order (∅, log) in
  if Nat.eqb (size results) 0
  then ((None, Some errSocialMetrics), log')
  else ((Some results, None), log').

(** The results of [CollectSocialMetrics]: one for each order in which the
    goroutines of the sources complete. *)
Definition CollectSocialMetrics (c : MultiSourceCollector) (symbol : string)
    (log : list LogEntry)
    (res : (option (gmap string float) * option error) * list LogEntry)
  : Prop :=
  exists order : list DataSource,
    Permutation (sources c) order /\
    res = collectSocialMetricsIn order symbol log.

(** What a source did, as the collector tests it. *)
Definition tokenInfoSucceeds (symbol : string) (source : DataSource) : Prop :=
  exists info : TokenInfo, SourceTokenInfo source symbol = (Some info, None).

Definition socialMetricsSucceeds (symbol : string) (source : DataSource)
  : Prop :=
  snd (SourceSocialMetrics source symbol) = None.

End Collector.

(** ** The terms in which the collector is specified *)

Module CollectorTerms.

Import Models Collector.

(** The two entries [CollectTokenInfo] logs for a source. *)
Definition tokenFailureEntry (symbol : string) (source : DataSource)
  : LogEntry :=
  LogError "failed to collect token info"
    [FieldString "source"; FieldString (SourceName source);
     FieldString "error"; FieldError (snd (SourceTokenInfo source symbol))].

Definition tokenSuccessEntry (symbol : string) (source : DataSource)
  : LogEntry :=
  LogInfo "collected token info"
    [FieldString "source"; FieldString (SourceName source);
     FieldString "symbol"; FieldString symbol].

(** The source answers without error and its map gives [v] to [k]. *)
Definition contributes (symbol : string) (source : DataSource)
    (k : string) (v : float) : Prop :=
  socialMetricsSucceeds symbol source /\
  fst (SourceSocialMetrics source symbol) !! k = Some v.

(** The source fails, or answers with an empty map. *)
Definition emptyHanded (symbol : string) (source : DataSource) : Prop :=
  ~ socialMetricsSucceeds symbol source \/
  fst (SourceSocialMetrics source symbol) = ∅.

(** The accumulator after the sources of [order] have stored their maps,
    each map over what was stored before. *)
Definition mergeAll (symbol : string) (order : list DataSource)
    (acc : gmap string float) : gmap string float :=
  fold_left
    (fun (acc : gmap string float) (source : DataSource) =>
       match snd (SourceSocialMetrics source symbol) with
       | None => fst (SourceSocialMetrics source symbol) ∪ acc
       | Some _ => acc
       end) order acc.

(** Sources for the examples. *)
Definition failingSource (name : string) : DataSource :=
  {| SourceName := name;
     SourceTokenInfo := fun _ => (None, Some "unavailable");
     SourceMarketData := fun _ => (None, Some "unavailable");
     SourceSocialMetrics := fun _ => (∅, Some "unavailable") |}.

Definition sampleToken (symbol : string) : TokenInfo :=
  {| Symbol := symbol; Name := "Token"; ContractAddress := "0x0";
     Network := "eth"; LaunchType := "IDO"; LaunchDate := 0;
     InitialPrice := 1; TotalSupply := 1000; CirculatingSupply := 100;
     TeamAllocation := 10; VestingSchedule := "" |}.

Definition metricsSource (name : string) (metrics : gmap string float)
  : DataSource :=
  {| SourceName := name;
     SourceTokenInfo := fun symbol => (Some (sampleToken symbol), None);
     SourceMarketData := fun _ => (None, Some "unavailable");
     SourceSocialMetrics := fun _ => (metrics, None) |}.

Definition twitterSource : DataSource :=
  metricsSource "A" {[ "twitter" := 1%float ]}.
Definition redditSource : DataSource :=
  metricsSource "B" {[ "reddit" := 2%float ]}.

End CollectorTerms.

(** ** internal/data/collector, the market data *)

Module MarketFeed.

Import Models Collector.

Definition errMarketData : error :=
  "failed to collect market data from all sources".

(** The loop of [CollectMarketData] (lines 59-68) over the sources left. *)
Fixpoint collectMarketDataFrom (rest : list DataSource) (symbol : string)
    (log : list LogEntry)
  : (option MarketData * option error) * list LogEntry :=
  match rest with
  | [] => ((None, Some errMarketData), log)
  | source :: rest' =>
      let '(result, err) := SourceMarketData source symbol in
      match err, result with
      | None, Some data =>
          ((Some data, None),
           (log ++ [LogInfo "collected market data"
                      [FieldString "source"; FieldString (SourceName source);
                       FieldString "symbol"; FieldString symbol]])%list)
      | _, _ =>
          collectMarketDataFrom rest' symbol
            (log ++ [LogError "failed to collect market data"
                       [FieldString "source"; FieldString (SourceName source);
                        FieldString "error"; FieldError err]])%list
      end
  end.

Definition CollectMarketData (c : MultiSourceCollector) (symbol : string)
    (log : list LogEntry)
  : (option MarketData * option error) * list LogEntry :=
  collectMarketDataFrom (sources c) symbol log.

(** The capacity of the channel [SubscribeToMarketData] makes. *)
Definition outCapacity : nat := 100.

(** One turn of the loop over the symbols (lines 126-138), run by the
    goroutine of the source [src] at a tick: the channel [out] is the list
    of the snapshots not yet received, the oldest first.  [None] is the
    run-time panic of [*data] on a [nil] pointer, which the test of [err]
    alone does not exclude. *)
Definition pollSymbol (src : DataSource)
    (st : list MarketData * list LogEntry) (symbol : string)
  : option (list MarketData * list LogEntry) :=
  let '(out, log) := st in
  let '(data, err) := SourceMarketData src symbol in
  match err with
  | Some _ =>
      Some (out,
            (log ++ [LogError "failed to collect market data"
                       [FieldString "source"; FieldString (SourceName src);
                        FieldString "symbol"; FieldString symbol;
                        FieldString "error"; FieldError err]])%list)
  | None =>
      match data with
      | None => None
      | Some d =>
          if Nat.ltb (length out) outCapacity
          then Some ((out ++ [d])%list, log)
          else
            Some (out,
                  (log ++ [LogError "channel full, dropping market data"
                             [FieldString "source";
                              FieldString (SourceName src);
                              FieldString "symbol";
                              FieldString symbol]])%list)
      end
  end.

(** The whole loop of one tick, no other goroutine sending or receiving
    meanwhile. *)
Fixpoint pollSymbols (src : DataSource) (symbols : list string)
    (st : list MarketData * list LogEntry)
  : option (list MarketData * list LogEntry) :=
  match symbols with
  | [] => Some st
  | symbol :: rest =>
      match pollSymbol src st symbol with
      | None => None
      | Some st' => pollSymbols src rest st'
      end
  end.

(** [internal/data/collector/binance]: the source of Binance.  Its two
    first methods ask the exchange over HTTP and are parameters here; its
    social metrics are the placeholder of lines 117-121, an empty map and
    no error. *)
Definition NewBinanceDataSource
    (tokenInfo : string -> option TokenInfo * option error)
    (marketData : string -> option MarketData * option error)
  : DataSource :=
  {| SourceName := "binance";
     SourceTokenInfo := tokenInfo;
     SourceMarketData := marketData;
     SourceSocialMetrics := fun _ => (∅, None) |}.

End MarketFeed.

(** ** The terms in which the market data are specified *)

Module MarketFeedTerms.

Import Models Collector MarketFeed.

Definition marketDataSucceeds (symbol : string) (source : DataSource) : Prop :=
  exists data : MarketData, SourceMarketData source symbol = (Some data, None).

Definition marketFailureEntry (symbol : string) (source : DataSource)
  : LogEntry :=
  LogError "failed to collect market data"
    [FieldString "source"; FieldString (SourceName source);
     FieldString "error"; FieldError (snd (SourceMarketData source symbol))].

Definition marketSuccessEntry (symbol : string) (source : DataSource)
  : LogEntry :=
  LogInfo "collected market data"
    [FieldString "source"; FieldString (SourceName source);
     FieldString "symbol"; FieldString symbol].

(** The source gives neither a snapshot nor an error for the symbol. *)
Definition answersNothing (src : DataSource) (symbol : string) : Prop :=
  SourceMarketData src symbol = (None, None).

(** The snapshots a source gives without error for the symbols, in the
    order of the symbols. *)
Definition snapshotsOf (src : DataSource) (symbols : list string)
  : list MarketData :=
  flat_map
    (fun symbol =>
       match SourceMarketData src symbol with
       | (Some d, None) => [d]
       | _ => []
       end) symbols.

Definition sampleSnapshot (symbol : string) : MarketData :=
  {| MdSymbol := symbol; MdPrice := 100; Volume24h := 10; MarketCap := 0;
     PriceChange1h := 0; PriceChange24h := 1; MdTimestamp := 0 |}.

(** A source whose market data succeed for every symbol but ["BAD"], for
    which it fails, and ["NIL"], for which it answers nothing. *)
Definition feedSource : DataSource :=
  {| SourceName := "feed";
     SourceTokenInfo := fun _ => (None, Some "unavailable");
     SourceMarketData := fun symbol =>
       if String.eqb symbol "BAD" then (None, Some "unavailable")
       else if String.eqb symbol "NIL" then (None, None)
       else (Some (sampleSnapshot symbol), None);
     SourceSocialMetrics := fun _ => (∅, Some "unavailable") |}.

End MarketFeedTerms.

(** ** internal/trading/binance: the executor of Binance

    The client of the exchange is a parameter: [Do] sends the request to
    create an order, [DoCancel] the request to cancel one, [GetAccount]
    reads the account.  Each returns a response or an error, as the
    client library does.  [strconv]'s conversions are parameters too.
    The mutex of the executor has no part in one call. *)

Module BinanceExecutor.

Import Trading.

Inductive OrderType : Type := OrderTypeMarket | OrderTypeLimit.
Inductive SideType : Type := SideTypeBuy | SideTypeSell.
Inductive TimeInForceType : Type := TimeInForceTypeGTC.

(** What the calls on the order service have set when [Do] is called. *)
Record CreateOrderRequest : Type := mkCreateOrderRequest {
  reqSymbol : string;
  reqSide : SideType;
  reqType : OrderType;
  reqQuantity : string;
  reqTimeInForce : option TimeInForceType;
  reqPrice : option string
}.

Record CreateOrderResponse : Type := mkCreateOrderResponse {
  respStatus : string;
  respOrderID : Z
}.

Record CancelOrderRequest : Type := mkCancelOrderRequest {
  cancelSymbol : string;
  cancelOrderID : Z
}.

Record Balance : Type := mkBalance {
  Asset : string;
  Free : string
}.

Section Executor.

(** [strconv.FormatFloat(x, 'f', -1, 64)], [strconv.FormatInt(n, 10)],
    [strconv.ParseInt(s, 10, 64)] and [strconv.ParseFloat(s, 64)]. *)
Variable FormatFloat : float -> string.
Variable FormatInt : Z -> string.
Variable ParseInt : string -> Z + error.
Variable ParseFloat : string -> float + error.

Variable Do : CreateOrderRequest -> CreateOrderResponse + error.
Variable DoCancel : CancelOrderRequest -> option error.
Variable GetAccount : list Balance + error.

(** [PlaceOrder]: the order as the call leaves it, the error, and the
    requests sent to the exchange. *)
Definition PlaceOrder (order : Order)
  : Order * option error * list CreateOrderRequest :=
  let orderType :=
    if String.eqb (Trading.OrderType order) "market" then Some OrderTypeMarket
    else if String.eqb (Trading.OrderType order) "limit"
         then Some OrderTypeLimit
         else None in
  match orderType with
  | None =>
      (order,
       Some (String.append "unsupported order type: "
               (Trading.OrderType order)), [])
  | Some orderType =>
      let side :=
        if String.eqb (Side order) "buy" then Some SideTypeBuy
        else if String.eqb (Side order) "sell" then Some SideTypeSell
        else None in
      match side with
      | None =>
          (order, Some (String.append "invalid side: " (Side order)), [])
      | Some side =>
          let quantity := FormatFloat (Amount order) in
          let request :=
            match orderType with
            | OrderTypeLimit =>
                {| reqSymbol := Symbol order; reqSide := side;
                   reqType := orderType; reqQuantity := quantity;
                   reqTimeInForce := Some TimeInForceTypeGTC;
                   reqPrice := Some (FormatFloat (Price order)) |}
            | OrderTypeMarket =>
                {| reqSymbol := Symbol order; reqSide := side;
                   reqType := orderType; reqQuantity := quantity;
                   reqTimeInForce := None; reqPrice := None |}
            end in
          match Do request with
          | inr err =>
              (order, Some (String.append "failed to place order: " err),
               [request])
          | inl result =>
              ({| Symbol := Symbol order; Side := Side order;
                  Amount := Amount order; Price := Price order;
                  Trading.OrderType := Trading.OrderType order;
                  Status := respStatus result;
                  OrderID := FormatInt (respOrderID result);
                  RawOrderID := respOrderID result |},
               None, [request])
          end
      end
  end.

(** [CancelOrder]: the error and the requests sent to the exchange. *)
Definition CancelOrder (symbol orderID : string)
  : option error * list CancelOrderRequest :=
  match ParseInt orderID with
  | inr err => (Some (String.append "invalid order ID: " err), [])
  | inl id =>
      let request := {| cancelSymbol := symbol; cancelOrderID := id |} in
      match DoCancel request with
      | Some err =>
          (Some (String.append "failed to cancel order: " err), [request])
      | None => (None, [request])
      end
  end.

(** The loop of [GetBalance] over the balances of the account. *)
Fixpoint findBalance (balances : list Balance) (symbol : string)
  : float * option error :=
  match balances with
  | [] =>
      (0%float,
       Some (String.append "balance not found for symbol: " symbol))
  | balance :: rest =>
      if String.eqb (Asset balance) symbol then
        match ParseFloat (Free balance) with
        | inr err =>
            (0%float, Some (String.append "failed to parse balance: " err))
        | inl free => (free, None)
        end
      else findBalance rest symbol
  end.

Definition GetBalance (symbol : string) : float * option error :=
  match GetAccount with
  | inr err =>
      (0%float, Some (String.append "failed to get account info: " err))
  | inl balances => findBalance balances symbol
  end.

End Executor.

End BinanceExecutor.

(** ** internal/ai and internal/configs: the types the system reads *)

Module Ai.

Import Models.

Record ProjectMetrics : Type := mkProjectMetrics {
  PmTokenInfo : TokenInfo;
  SocialScore : float;
  DevelopmentScore : float;
  CommunityGrowth : float;
  MarketSentiment : float;
  RiskScore : float;
  UpdatedAt : Time
}.

Record PricePrediction : Type := mkPricePrediction {
  PpSymbol : string;
  PredictedPrice : float;
  Confidence : float;
  TimeFrame : string;
  Factors : list string
}.

Record ScamAnalysis : Type := mkScamAnalysis {
  ScamProbability : float;
  ScamRiskFactors : list string;
  ScamConfidence : float
}.

End Ai.

Module Configs.

Record AIConfig : Type := mkAIConfig {
  MinConfidence : float;
  PredictTimeFrame : string;
  ScamThreshold : float;
  AiAPIKey : string;
  ModelType : string
}.

Record TradingConfig : Type := mkTradingConfig {
  MaxOrderAmount : float;
  MinOrderAmount : float;
  PriceTolerance : float;
  CfgOrderType : string
}.

Record Database : Type := mkDatabase {
  ConnStr : string
}.

Record ExchangeConfig : Type := mkExchangeConfig {
  ExDebug : bool;
  ExAPIKey : string;
  ExSecretKey : string
}.

Record Config : Type := mkConfig {
  Symbols : list string;
  RefreshInterval : string;
  CfgDatabase : Database;
  RiskParams : Risk.RiskParameters;
  CfgAI : AIConfig;
  CfgTrading : TradingConfig;
  CfgExchange : ExchangeConfig
}.

End Configs.

(** ** The program: the handlers of [QuantSystem]

    The collaborators of the system are interfaces; each is the record of
    the methods the handlers call, a method being the function of its
    arguments (a handler calls each at most once).  The risk manager is
    the [BasicRiskManager] the program builds.  The calls of the logger
    are left out: they write to the standard output and decide nothing. *)

Module Orchestrator.

Import Models Trading Risk Ai Configs.

Record DataCollector : Type := mkDataCollector {
  dcCollectTokenInfo : string -> option TokenInfo * option error;
  dcCollectSocialMetrics : string -> gmap string float * option error
}.

Record DataStorage : Type := mkDataStorage {
  SaveMarketData : MarketData -> option error
}.

Record Analyzer : Type := mkAnalyzer {
  PredictPrice : list MarketData -> option PricePrediction * option error;
  AnalyzeSentiment : gmap string string -> float * option error;
  DetectScam : ProjectMetrics -> option ScamAnalysis * option error
}.

Record TradeExecutor : Type := mkTradeExecutor {
  PlaceOrder : Order -> option error;
  GetBalance : string -> float * option error
}.

Record QuantSystem : Type := mkQuantSystem {
  config : Config;
  dataCollector : DataCollector;
  dataStorage : DataStorage;
  aiAnalyzer : Analyzer;
  riskManager : BasicRiskManager;
  tradeExecutor : TradeExecutor
}.

(** How a handler ends: with the error it returns, or with the run-time
    panic of a [nil] pointer that it dereferences. *)
Inductive Outcome : Type :=
| Panics
| Returns (err : option error).

(** The weights of [calculateSocialScore] (lines 202-207). *)
Definition weights : gmap string float :=
  {[ "twitter_followers" := 0.3%float;
     "telegram_members" := 0.3%float;
     "github_stars" := 0.2%float;
     "reddit_members" := 0.2%float ]}.

(** [calculateSocialScore] on the entries of the map in the order in which
    the [range] visits them, an order Go does not fix. *)
Definition calculateSocialScore (entries : list (string * float)) : float :=
  fold_left
    (fun (score : float) (entry : string * float) =>
       match weights !! fst entry with
       | Some weight => (score + snd entry * weight)%float
       | None => score
       end) entries 0%float.

Section Handlers.

(** [fmt.Sprintf] with the verb [%.2f]; the order of a [range] over a map;
    the time [time.Now()] returns. *)
Variable FormatFloat2 : float -> string.
Variable rangeOrder : gmap string float -> list (string * float).
Variable now : Time.

Definition convertSocialMetricsToMap (metrics : gmap string float)
  : gmap string string :=
  map_fold (fun (k : string) (v : float) (result : gmap string string) =>
              <[k := FormatFloat2 v]> result) ∅ metrics.

Variable s : QuantSystem.

Definition calculateOrderAmount (predictedPrice currentPrice : float)
  : float :=
  let amount := MaxOrderAmount (CfgTrading (config s)) in
  if (amount <? MinOrderAmount (CfgTrading (config s)))%float
  then MinOrderAmount (CfgTrading (config s))
  else amount.

Definition determineOrderSide (predictedPrice currentPrice : float)
  : string :=
  if (currentPrice * (1 + PriceTolerance (CfgTrading (config s)))
        <? predictedPrice)%float then "buy"
  else if (predictedPrice
             <? currentPrice * (1 - PriceTolerance (CfgTrading (config s))))
            %float then "sell"
  else "".

(** The order literal of [emergencyClose] and [reducePosition]; the
    fields it does not name have their zero value. *)
Definition sellOrder (symbol : string) (amount : float) : Order :=
  {| Symbol := symbol; Side := "sell"; Amount := amount; Price := 0%float;
     OrderType := "market"; Status := ""; OrderID := ""; RawOrderID := 0 |}.

(** A handler gives the error it returns and the orders it passed to
    [PlaceOrder]. *)
Definition emergencyClose (symbol : string) : option error * list Order :=
  let '(balance, err) := GetBalance (tradeExecutor s) symbol in
  match err with
  | Some _ => (err, [])
  | None =>
      if (0 <? balance)%float then
        let order := sellOrder symbol balance in
        (PlaceOrder (tradeExecutor s) order, [order])
      else (None, [])
  end.

Definition reducePosition (symbol : string) : option error * list Order :=
  let '(balance, err) := GetBalance (tradeExecutor s) symbol in
  match err with
  | Some _ => (err, [])
  | None =>
      if (0 <? balance)%float then
        let order := sellOrder symbol (balance * 0.5)%float in
        (PlaceOrder (tradeExecutor s) order, [order])
      else (None, [])
  end.

Definition handleRiskAlert (alert : RiskAlert) : option error * list Order :=
  if String.eqb (Severity alert) "high" then
    emergencyClose (AlertSymbol alert)
  else if String.eqb (Severity alert) "medium" then
    reducePosition (AlertSymbol alert)
  else (None, []).

(** Steps 3 and 4 of [handleMarketData] (lines 126-148): [Some] is the
    outcome with which the handler stops there, [None] lets it go on. *)
Definition scamGate (tokenInfo : option TokenInfo)
    (socialMetrics : gmap string float) : option Outcome :=
  if negb (Nat.eqb (size socialMetrics) 0) then
    match tokenInfo with
    | None => Some Panics
    | Some info =>
        let projectMetrics :=
          {| PmTokenInfo := info;
             SocialScore := calculateSocialScore (rangeOrder socialMetrics);
             DevelopmentScore := 0%float; CommunityGrowth := 0%float;
             MarketSentiment := 0%float; RiskScore := 0%float;
             UpdatedAt := now |} in
        let '(scamAnalysis, err) :=
          DetectScam (aiAnalyzer s) projectMetrics in
        match err with
        | Some _ => Some (Returns err)
        | None =>
            match scamAnalysis with
            | None => Some Panics
            | Some analysis =>
                if (ScamThreshold (CfgAI (config s))
                      <? ScamProbability analysis)%float
                then Some (Returns None)
                else None
            end
        end
    end
  else None.

(** Steps 7 and 8 (lines 169-192): the order, its assessment, the
    trade. *)
Definition tradeStep (data : MarketData) (prediction : PricePrediction)
  : Outcome * list Order :=
  let order :=
    {| Symbol := MdSymbol data;
       Side := determineOrderSide (PredictedPrice prediction) (MdPrice data);
       Amount :=
         calculateOrderAmount (PredictedPrice prediction) (MdPrice data);
       Price := PredictedPrice prediction;
       OrderType := CfgOrderType (CfgTrading (config s));
       Status := ""; OrderID := ""; RawOrderID := 0 |} in
  let '(riskAssessment, err) :=
    CheckTradeRisk FormatFloat2 (riskManager s) order in
  match err with
  | Some _ => (Returns err, [])
  | None =>
      match riskAssessment with
      | None => (Panics, [])
      | Some assessment =>
          if IsAcceptable assessment
          then (Returns (PlaceOrder (tradeExecutor s) order), [order])
          else (Returns None, [])
      end
  end.

(** Steps 5 and 6 (lines 150-167), then the trade. *)
Definition predictionStep (data : MarketData)
    (socialMetrics : gmap string float) : Outcome * list Order :=
  let '(sentiment, err) :=
    AnalyzeSentiment (aiAnalyzer s)
      (convertSocialMetricsToMap socialMetrics) in
  match err with
  | Some _ => (Returns err, [])
  | None =>
      if (sentiment <? -0.5)%float then (Returns None, [])
      else
        let '(prediction, err) := PredictPrice (aiAnalyzer s) [data] in
        match err with
        | Some _ => (Returns err, [])
        | None =>
            match prediction with
            | None => (Panics, [])
            | Some prediction =>
                if (Confidence prediction
                      <? MinConfidence (CfgAI (config s)))%float
                then (Returns None, [])
                else tradeStep data prediction
            end
        end
  end.

Definition handleMarketData (data : MarketData) : Outcome * list Order :=
  match SaveMarketData (dataStorage s) data with
  | Some err => (Returns (Some err), [])
  | None =>
      let '(tokenInfo, err) :=
        dcCollectTokenInfo (dataCollector s) (MdSymbol data) in
      match err with
      | Some _ => (Returns err, [])
      | None =>
          let '(socialMetrics, err) :=
            dcCollectSocialMetrics (dataCollector s) (MdSymbol data) in
          match err with
          | Some _ => (Returns err, [])
          | None =>
              match scamGate tokenInfo socialMetrics with
              | Some outcome => (outcome, [])
              | None => predictionStep data socialMetrics
              end
          end
      end
  end.

End Handlers.

End Orchestrator.

(** ** More terms for the risk engine *)

Module RiskMoreTerms.

Import Trading Risk RiskTerms.

(** One of the four checks that reject fires. *)
Definition rejectingCheckFires (rm : BasicRiskManager) (order : Order)
  : bool :=
  firesPositionSize rm order || firesTradeLoss rm order
  || firesDailyLoss rm order || firesVolume rm order.

(** The elements of [xs] at the places where [bs] is [true]. *)
Fixpoint selectFired {A : Type} (bs : list bool) (xs : list A) : list A :=
  match bs, xs with
  | b :: bs', x :: xs' =>
      if b then x :: selectFired bs' xs' else selectFired bs' xs'
  | _, _ => []
  end.

(** The texts and the weights of the six checks, in the order of the
    source. *)
Definition factorTexts : list string :=
  [factorPositionSize; factorTradeLoss; factorDailyLoss; factorMarketOrder;
   factorVolume; factorFrequency].

Definition checkWeights : list float :=
  [0.3; 0.25; 0.25; 0.1; 0.2; 0.15]%float.

(** The level that the weights [ws] add up to, from the left, as the
    evaluation adds them. *)
Definition addWeights (ws : list float) : float :=
  fold_left PrimFloat.add ws 0%float.

(** A limit that the validation of [SetRiskParameters] lets through. *)
Definition nanOrPositive (x : float) : Prop :=
  Float64.is_nan x \/ (0 <? x)%float = true.

(** The alert that the monitor builds for a position (lines 149-155). *)
Definition alertFor (now : Time) (pos : Position) : RiskAlert :=
  {| AlertSymbol := PosSymbol pos;
     AlertType := "Position Loss";
     Severity := getSeverityLevel (UnrealizedPnL pos);
     Description :=
       String.append "Position loss exceeded threshold for " (PosSymbol pos);
     Timestamp := now |}.

(** The alerts due for the positions, in their order: one for each
    position whose loss exceeds MaxLossPerTrade. *)
Definition alertsDue (rm : BasicRiskManager) (now : Time)
    (positions : list Position) : list RiskAlert :=
  flat_map
    (fun pos =>
       if (UnrealizedPnL pos <? - MaxLossPerTrade (params rm))%float
       then [alertFor now pos] else []) positions.

Definition nan : float := (0 / 0)%float.

(** A parameter set whose limits are all NaN. *)
Definition nanParams : RiskParameters :=
  {| MaxPositionSize := nan; MaxLossPerTrade := nan;
     MaxDailyLoss := nan; MaxLeverage := nan; MinLiquidity := nan |}.

Definition losingPosition (symbol : string) (pnl : float) : Position :=
  {| PosSymbol := symbol; UnrealizedPnL := pnl |}.

End RiskMoreTerms.

(** ** The terms in which the handlers are specified *)

Module SystemTerms.

Import Models Trading Risk RiskTerms Ai Configs Orchestrator.

(** The platform of the entry has a weight. *)
Definition weighted (entry : string * float) : Prop :=
  is_Some (weights !! fst entry).

(** The order [handleMarketData] builds from a snapshot and a prediction
    (lines 170-176). *)
Definition builtOrder (s : QuantSystem) (data : MarketData)
    (prediction : PricePrediction) : Order :=
  {| Symbol := MdSymbol data;
     Side := determineOrderSide s (PredictedPrice prediction) (MdPrice data);
     Amount :=
       calculateOrderAmount s (PredictedPrice prediction) (MdPrice data);
     Price := PredictedPrice prediction;
     OrderType := CfgOrderType (CfgTrading (config s));
     Status := ""; OrderID := ""; RawOrderID := 0 |}.

(** The collector of the system answers for the social metrics what the
    multi-source collector [c] returns, a [nil] map being empty. *)
Definition backedBy (c : Collector.MultiSourceCollector)
    (dc : DataCollector) : Prop :=
  forall symbol : string,
    exists (log : list Collector.LogEntry)
           (res : (option (gmap string float) * option error)
                  * list Collector.LogEntry),
      Collector.CollectSocialMetrics c symbol log res /\
      dcCollectSocialMetrics dc symbol =
        (default ∅ (fst (fst res)), snd (fst res)).

(** A configuration and collaborators for the examples: the storage
    succeeds, the token is known, the analyzer finds no scam, a neutral
    sentiment and a price of 120 with confidence 0.9, and the executor
    holds a balance of 4 and accepts every order. *)
Definition sampleConfig : Config :=
  {| Symbols := ["BTCUSDT"]; RefreshInterval := "10s";
     CfgDatabase := {| ConnStr := "" |};
     RiskParams := sampleParams;
     CfgAI := {| MinConfidence := 0.7; PredictTimeFrame := "1h";
                 ScamThreshold := 0.8; AiAPIKey := ""; ModelType := "" |};
     CfgTrading := {| MaxOrderAmount := 2; MinOrderAmount := 1;
                      PriceTolerance := 0.01; CfgOrderType := "limit" |};
     CfgExchange := {| ExDebug := true; ExAPIKey := "";
                       ExSecretKey := "" |} |}.

Definition sampleAnalyzer : Analyzer :=
  {| PredictPrice := fun _ =>
       (Some {| PpSymbol := "BTCUSDT"; PredictedPrice := 120;
                Confidence := 0.9; TimeFrame := "1h"; Factors := [] |},
        None);
     AnalyzeSentiment := fun _ => (0%float, None);
     DetectScam := fun _ =>
       (Some {| ScamProbability := 0.1; ScamRiskFactors := [];
                ScamConfidence := 0.9 |}, None) |}.

Definition sampleExecutor : TradeExecutor :=
  {| PlaceOrder := fun _ => None;
     GetBalance := fun _ => (4%float, None) |}.

Definition sampleCollector (metrics : gmap string float)
    (err : option error) : DataCollector :=
  {| dcCollectTokenInfo := fun symbol =>
       (Some {| Models.Symbol := symbol; Name := symbol; ContractAddress := "";
                Network := ""; LaunchType := ""; LaunchDate := 0;
                InitialPrice := 0; TotalSupply := 0;
                CirculatingSupply := 0; TeamAllocation := 0;
                VestingSchedule := "" |}, None);
     dcCollectSocialMetrics := fun _ => (metrics, err) |}.

Definition sampleSystem (collector : DataCollector) : QuantSystem :=
  {| config := sampleConfig;
     dataCollector := collector;
     dataStorage := {| SaveMarketData := fun _ => None |};
     aiAnalyzer := sampleAnalyzer;
     riskManager := testManager;
     tradeExecutor := sampleExecutor |}.

Definition sampleData : MarketData :=
  {| MdSymbol := "BTCUSDT"; MdPrice := 100; Volume24h := 10;
     MarketCap := 0; PriceChange1h := 0; PriceChange24h := 1;
     MdTimestamp := 0 |}.

(** A prediction within the tolerance of the price of [sampleData]. *)
Definition flatPrediction : PricePrediction :=
  {| PpSymbol := "BTCUSDT"; PredictedPrice := 100.5; Confidence := 0.9;
     TimeFrame := "1h"; Factors := [] |}.

Definition sampleRange (m : gmap string float) : list (string * float) :=
  map_to_list m.

End SystemTerms.

(** ** The terms in which the executor is specified *)

Module ExecutorTerms.

Import Trading BinanceExecutor.

Definition typeSupported (order : Order) : Prop :=
  Trading.OrderType order = "market" \/ Trading.OrderType order = "limit".

Definition sideValid (order : Order) : Prop :=
  Side order = "buy" \/ Side order = "sell".

(** The order after a successful placement. *)
Definition placed (FormatInt : Z -> string) (order : Order)
    (result : CreateOrderResponse) : Order :=
  {| Symbol := Symbol order; Side := Side order;
     Amount := Amount order; Price := Price order;
     Trading.OrderType := Trading.OrderType order;
     Status := respStatus result;
     OrderID := FormatInt (respOrderID result);
     RawOrderID := respOrderID result |}.

(** An exchange for the examples: it fills every order under the
    identifier 42, and holds 0.5 BTC after an entry for ETH. *)
Definition sampleDo (request : CreateOrderRequest)
  : CreateOrderResponse + error :=
  inl {| respStatus := "FILLED"; respOrderID := 42 |}.

Definition sampleAccount : list Balance + error :=
  inl [ {| Asset := "ETH"; Free := "3" |};
        {| Asset := "BTC"; Free := "0.5" |};
        {| Asset := "BTC"; Free := "9" |} ].

Definition sampleFormatInt (n : Z) : string :=
  if n =? 42 then "42" else "".
Definition sampleParseInt (text : string) : Z + error :=
  if String.eqb text "42" then inl 42 else inr "syntax".
Definition sampleParseFloat (text : string) : float + error :=
  if String.eqb text "0.5" then inl 0.5%float
  else if String.eqb text "3" then inl 3%float
  else inr "syntax".
Definition sampleFormatFloat (x : float) : string :=
  if (x =? 4)%float then "4" else "".

End ExecutorTerms.

(** * Comparisons of binary64 numbers *)

Module Float64Facts.

Import Float64.

Lemma SFcompare_antisym (a b : spec_float) :
  SFcompare b a = option_map CompOpp (SFcompare a b).
Proof.
  destruct a as [sa| sa | |sa ma ea], b as [sb|sb| |sb mb eb]; simpl;
    try reflexivity;
    try (destruct sa; reflexivity);
    try (destruct sb; reflexivity);
    try (destruct sa, sb; reflexivity).
  f_equal.
  rewrite (Z.compare_antisym ea eb).
  change (PosDef.Pos.compare_cont Eq mb ma) with (Pos.compare mb ma).
  change (PosDef.Pos.compare_cont Eq ma mb) with (Pos.compare ma mb).
  rewrite (Pos.compare_antisym ma mb).
  destruct sa, sb; simpl; try reflexivity;
    destruct (ea ?= eb)%Z; simpl; try reflexivity;
    destruct (ma ?= mb)%positive; reflexivity.
Qed.

Lemma SFcompare_None (a b : spec_float) :
  SFcompare a b = None -> a = S754_nan \/ b = S754_nan.
Proof.
  destruct a, b; simpl; intros H; try discriminate H; auto.
Qed.

(** [x < y] excludes [y <= x]. *)
Lemma ltb_leb_false (x y : float) :
  (x <? y)%float = true -> (y <=? x)%float = false.
Proof.
  rewrite ltb_spec, leb_spec. unfold SFltb, SFleb.
  rewrite (SFcompare_antisym (Prim2SF x) (Prim2SF y)).
  destruct (SFcompare (Prim2SF x) (Prim2SF y)) as [[ | | ]|]; simpl;
    intros H; try discriminate H; reflexivity.
Qed.

Lemma ltb_not_nan (x y : float) :
  (x <? y)%float = true -> ~ is_nan x.
Proof.
  rewrite ltb_spec. unfold SFltb, is_nan. intros H Hn.
  rewrite Hn in H. discriminate H.
Qed.

(** On numbers, [x < y] is the negation of [y <= x]. *)
Lemma ltb_negb_leb (x y : float) :
  ~ is_nan x -> ~ is_nan y -> (x <? y)%float = negb (y <=? x)%float.
Proof.
  unfold is_nan. intros Hx Hy.
  rewrite ltb_spec, leb_spec. unfold SFltb, SFleb.
  rewrite (SFcompare_antisym (Prim2SF x) (Prim2SF y)).
  destruct (SFcompare (Prim2SF x) (Prim2SF y)) as [[ | | ]|] eqn:E; simpl;
    try reflexivity.
  destruct (SFcompare_None _ _ E); contradiction.
Qed.

End Float64Facts.

(** * NaN in the comparisons and in the product *)

Module Float64More.

Import Float64 Float64Facts.

Lemma nan_ltb_l (x y : float) : is_nan x -> (x <? y)%float = false.
Proof.
  unfold is_nan. intros H. rewrite ltb_spec, H. reflexivity.
Qed.

Lemma nan_ltb_r (x y : float) : is_nan y -> (x <? y)%float = false.
Proof.
  unfold is_nan. intros H. rewrite ltb_spec, H. unfold SFltb.
  destruct (Prim2SF x); reflexivity.
Qed.

Lemma nan_leb_l (x y : float) : is_nan x -> (x <=? y)%float = false.
Proof.
  unfold is_nan. intros H. rewrite leb_spec, H. reflexivity.
Qed.

Lemma nan_mul_l (x y : float) : is_nan x -> is_nan (x * y)%float.
Proof.
  unfold is_nan. intros H. rewrite mul_spec, H. reflexivity.
Qed.


End Float64More.

(** * The risk engine *)

Module RiskFacts.

Import Trading Risk RiskTerms Float64 Float64Facts.

(** ** [getSeverityLevel] *)

Lemma getSeverityLevel_cases (pnl : float) :
  getSeverityLevel pnl =
    if (pnl <? -10000)%float then "HIGH"
    else if (pnl <? -5000)%float then "MEDIUM" else "LOW".
Proof. reflexivity. Qed.

Lemma minus_10000_number : ~ is_nan (-10000)%float.
Proof. unfold is_nan. vm_compute. discriminate. Qed.

(** Below -5000, a number is not below -10000 exactly when -10000 is at
    most that number. *)
Lemma medium_interval (pnl : float) :
  (pnl <? -5000)%float = true ->
  ((pnl <? -10000)%float = false <-> (-10000 <=? pnl)%float = true).
Proof.
  intros H5.
  rewrite (ltb_negb_leb pnl (-10000)%float (ltb_not_nan _ _ H5)
             minus_10000_number).
  destruct (-10000 <=? pnl)%float; simpl; split; congruence.
Qed.

(** C7: [getSeverityLevel] gives HIGH exactly below -10000, MEDIUM exactly
    from -10000 (included) to -5000 (excluded), LOW in every other case;
    -15000 is HIGH, -7500 is MEDIUM, -1000 is LOW, and the two cut points
    -10000 and -5000 are MEDIUM and LOW. *)
Theorem getSeverityLevel_cut_points :
  (forall pnl : float,
     getSeverityLevel pnl = "HIGH" <-> (pnl <? -10000)%float = true) /\
  (forall pnl : float,
     getSeverityLevel pnl = "MEDIUM" <->
     (-10000 <=? pnl)%float = true /\ (pnl <? -5000)%float = true) /\
  (forall pnl : float,
     getSeverityLevel pnl = "LOW" <->
     (pnl <? -10000)%float = false /\
     ~ ((-10000 <=? pnl)%float = true /\ (pnl <? -5000)%float = true)) /\
  getSeverityLevel (-15000)%float = "HIGH" /\
  getSeverityLevel (-7500)%float = "MEDIUM" /\
  getSeverityLevel (-1000)%float = "LOW" /\
  getSeverityLevel (-10000)%float = "MEDIUM" /\
  getSeverityLevel (-5000)%float = "LOW".
Proof.
  repeat split; try reflexivity; rewrite getSeverityLevel_cases in *.
  - destruct (pnl <? -10000)%float; [reflexivity|].
    destruct (pnl <? -5000)%float; discriminate.
  - intros ->. reflexivity.
  - destruct (pnl <? -10000)%float eqn:E1; [discriminate|].
    destruct (pnl <? -5000)%float eqn:E5; [|discriminate].
    apply (medium_interval pnl E5). exact E1.
  - destruct (pnl <? -10000)%float; [discriminate|].
    destruct (pnl <? -5000)%float; [reflexivity|discriminate].
  - intros [Hge Hlt]. apply (medium_interval pnl Hlt) in Hge.
    rewrite Hge, Hlt. reflexivity.
  - destruct (pnl <? -10000)%float; [discriminate|reflexivity].
  - destruct (pnl <? -10000)%float eqn:E1; [discriminate|].
    destruct (pnl <? -5000)%float eqn:E5; [discriminate|].
    intros [_ Hlt]. discriminate Hlt.
  - intros [E1 Hnot]. rewrite E1.
    destruct (pnl <? -5000)%float eqn:E5; [|reflexivity].
    exfalso. apply Hnot. split; [|reflexivity].
    apply (medium_interval pnl E5). exact E1.
Qed.

(** ** [SetRiskParameters] *)

(** C2: with a field at most zero [SetRiskParameters] returns the error
    and the manager it was given, parameters included; with five fields
    above zero it returns no error and the manager holds the new set. *)
Theorem SetRiskParameters_all_or_nothing
    (rm : BasicRiskManager) (p : RiskParameters) :
  (someFieldNotPositive p ->
   SetRiskParameters rm p = (rm, Some errInvalidParameters)) /\
  (allFieldsPositive p ->
   SetRiskParameters rm p = (withParams rm p, None) /\
   params (fst (SetRiskParameters rm p)) = p).
Proof.
  unfold SetRiskParameters, someFieldNotPositive, allFieldsPositive. split.
  - intros H.
    destruct (MaxPositionSize p <=? 0)%float; [reflexivity|].
    destruct (MaxLossPerTrade p <=? 0)%float; [reflexivity|].
    destruct (MaxDailyLoss p <=? 0)%float; [reflexivity|].
    destruct (MaxLeverage p <=? 0)%float; [reflexivity|].
    destruct (MinLiquidity p <=? 0)%float; [reflexivity|].
    destruct H as [H|[H|[H|[H|H]]]]; discriminate H.
  - intros (H1 & H2 & H3 & H4 & H5).
    rewrite (ltb_leb_false _ _ H1), (ltb_leb_false _ _ H2),
      (ltb_leb_false _ _ H3), (ltb_leb_false _ _ H4), (ltb_leb_false _ _ H5).
    split; reflexivity.
Qed.

(** The two rejected sets and the accepted set of the package's test. *)
Lemma SetRiskParameters_all_or_nothing_test :
  let rm := NewBasicRiskManager zeroParams 0 in
  SetRiskParameters rm negativeSizeParams = (rm, Some errInvalidParameters)
  /\ SetRiskParameters rm sampleParams = (withParams rm sampleParams, None).
Proof.
  split.
  - apply (SetRiskParameters_all_or_nothing
             (NewBasicRiskManager zeroParams 0) negativeSizeParams).
    left. reflexivity.
  - apply (SetRiskParameters_all_or_nothing
             (NewBasicRiskManager zeroParams 0) sampleParams).
    repeat split; reflexivity.
Defined.

(** ** [CheckTradeRisk] *)

Section CheckTradeRiskFacts.

Variable FormatFloat2 : float -> string.

Ltac unfold_checks :=
  unfold CheckTradeRisk, laterChecks, checkPositionSize, checkDailyLoss,
    checkMarketOrder, checkVolume, checkFrequency, freshAssessment,
    countFired, noCheckFires, onlyMarketFires, sizeAndMarketFire,
    firedChecks, firesTradeLoss, firesPositionSize, firesDailyLoss,
    firesMarketOrder, firesVolume, firesFrequency, lossCondition,
    sizeRejected, lossRejected, orderValueOf in *.

Ltac split_conditions rm order :=
  destruct (MaxPositionSize (params rm) <? Amount order * Price order)%float;
  destruct (String.eqb (Side order) "buy");
  destruct (MaxLossPerTrade (params rm) <?
              Amount order * Price order * 0.1)%float;
  destruct (MaxDailyLoss (params rm) <?
              totalLoss (dailyStats rm) +
              Amount order * Price order * 0.1)%float;
  destruct (String.eqb (OrderType order) "market");
  destruct (MaxPositionSize (params rm) * 5 <?
              tradingVolume (dailyStats rm) +
              Amount order * Price order)%float;
  destruct (100 <? tradeCount (dailyStats rm)).

Ltac split_later rm order :=
  destruct (MaxDailyLoss (params rm) <?
              totalLoss (dailyStats rm) +
              Amount order * Price order * 0.1)%float;
  destruct (String.eqb (OrderType order) "market");
  destruct (MaxPositionSize (params rm) * 5 <?
              tradingVolume (dailyStats rm) +
              Amount order * Price order)%float;
  destruct (100 <? tradeCount (dailyStats rm)).

(** The evaluation always returns an assessment and the [nil] error. *)
Lemma CheckTradeRisk_returns (rm : BasicRiskManager) (order : Order) :
  CheckTradeRisk FormatFloat2 rm order =
    (Some (laterChecks rm (params rm) order (orderValueOf order)
             (checkPositionSize FormatFloat2 (params rm) order
                (orderValueOf order) freshAssessment)), None).
Proof. reflexivity. Qed.

(** The later checks never turn a rejection into an acceptance. *)
Lemma laterChecks_keeps_rejection (rm : BasicRiskManager) (order : Order)
    (a : RiskAssessment) :
  IsAcceptable a = false ->
  IsAcceptable (laterChecks rm (params rm) order (orderValueOf order) a)
  = false.
Proof.
  intros H. unfold_checks. split_later rm order; simpl; auto.
Qed.

(** The later checks record neither of the first two factors. *)
Lemma laterChecks_first_factors (rm : BasicRiskManager) (order : Order)
    (a : RiskAssessment) (f : string) :
  f = factorPositionSize \/ f = factorTradeLoss ->
  (In f (RiskFactors
           (laterChecks rm (params rm) order (orderValueOf order) a))
   <-> In f (RiskFactors a)).
Proof.
  intros [-> | ->]; unfold_checks;
    split_later rm order; simpl; rewrite ?in_app_iff; simpl;
    unfold factorPositionSize, factorTradeLoss, factorDailyLoss,
      factorMarketOrder, factorVolume, factorFrequency;
    intuition discriminate.
Qed.

(** C1: when the value of the order exceeds MaxPositionSize the evaluation
    rejects, adds 0.3 to the level and records the position-size factor,
    and the loss of the trade is not checked; otherwise it rejects, adds
    0.25 and records the per-trade-loss factor exactly when the side is buy
    and a tenth of the value exceeds MaxLossPerTrade.  The two factors are
    never both in one assessment. *)
Theorem CheckTradeRisk_size_or_loss (rm : BasicRiskManager) (order : Order) :
  exists a : RiskAssessment,
    CheckTradeRisk FormatFloat2 rm order = (Some a, None) /\
    (firesPositionSize rm order = true ->
     a = laterChecks rm (params rm) order (orderValueOf order)
           (sizeRejected FormatFloat2 (params rm)) /\
     IsAcceptable a = false /\
     In factorPositionSize (RiskFactors a) /\
     ~ In factorTradeLoss (RiskFactors a)) /\
    (firesPositionSize rm order = false ->
     ~ In factorPositionSize (RiskFactors a) /\
     (lossCondition rm order = true ->
      a = laterChecks rm (params rm) order (orderValueOf order)
            (lossRejected FormatFloat2 (params rm)) /\
      IsAcceptable a = false /\
      In factorTradeLoss (RiskFactors a)) /\
     (lossCondition rm order = false ->
      a = laterChecks rm (params rm) order (orderValueOf order)
            freshAssessment /\
      ~ In factorTradeLoss (RiskFactors a))) /\
    ~ (In factorPositionSize (RiskFactors a) /\
       In factorTradeLoss (RiskFactors a)).
Proof.
  eexists. split; [apply CheckTradeRisk_returns|].
  assert (Hpos : forall a,
            In factorPositionSize (RiskFactors
              (laterChecks rm (params rm) order (orderValueOf order) a))
            <-> In factorPositionSize (RiskFactors a))
    by (intros a; apply laterChecks_first_factors; auto).
  assert (Hloss : forall a,
            In factorTradeLoss (RiskFactors
              (laterChecks rm (params rm) order (orderValueOf order) a))
            <-> In factorTradeLoss (RiskFactors a))
    by (intros a; apply laterChecks_first_factors; auto).
  unfold firesPositionSize, lossCondition, checkPositionSize.
  destruct (MaxPositionSize (params rm) <? orderValueOf order)%float.
  - split; [|split].
    + intros _. split; [reflexivity|].
      split; [apply laterChecks_keeps_rejection; reflexivity|].
      rewrite Hpos, Hloss. simpl. split; [auto|].
      intros [H|[]]; discriminate H.
    + intros H; discriminate H.
    + rewrite Hpos, Hloss. simpl. intros [_ [H|[]]]; discriminate H.
  - destruct (String.eqb (Side order) "buy"
              && (MaxLossPerTrade (params rm) <?
                    orderValueOf order * 0.1)%float).
    + split; [|split].
      * intros H; discriminate H.
      * intros _. rewrite Hpos, Hloss. simpl. split; [|split].
        -- intros [H|[]]; discriminate H.
        -- intros _. split; [reflexivity|].
           split; [apply laterChecks_keeps_rejection; reflexivity|auto].
        -- intros H; discriminate H.
      * rewrite Hpos, Hloss. simpl. intros [[H|[]] _]; discriminate H.
    + split; [|split].
      * intros H; discriminate H.
      * intros _. rewrite Hpos, Hloss. simpl. split; [|split].
        -- intros [].
        -- intros H; discriminate H.
        -- intros _. split; [reflexivity|]. intros [].
      * rewrite Hpos, Hloss. simpl. intros [[] _].
Qed.

(** *** The evaluation as six checks run in order *)

Lemma checkPositionSize_checks (rm : BasicRiskManager) (order : Order)
    (a : RiskAssessment) :
  checkPositionSize FormatFloat2 (params rm) order (orderValueOf order) a =
  runChecks (firstn 2 (sixChecks FormatFloat2 rm order)) a.
Proof.
  unfold checkPositionSize, runChecks, sixChecks, applyCheck,
    firesTradeLoss, firesPositionSize. simpl.
  destruct (MaxPositionSize (params rm) <? orderValueOf order)%float;
    simpl; [reflexivity|].
  destruct (String.eqb (Side order) "buy"
            && (MaxLossPerTrade (params rm) <?
                  orderValueOf order * 0.1)%float); reflexivity.
Qed.

Lemma laterChecks_checks (rm : BasicRiskManager) (order : Order)
    (a : RiskAssessment) :
  laterChecks rm (params rm) order (orderValueOf order) a =
  runChecks (skipn 2 (sixChecks FormatFloat2 rm order)) a.
Proof.
  unfold laterChecks, runChecks, sixChecks. simpl.
  unfold checkFrequency, firesFrequency.
  destruct (100 <? tradeCount (dailyStats rm)); simpl;
    (unfold checkVolume, firesVolume, orderValueOf;
     destruct (MaxPositionSize (params rm) * 5 <?
                 tradingVolume (dailyStats rm) +
                 Amount order * Price order)%float; simpl;
     (unfold checkMarketOrder, firesMarketOrder;
      destruct (String.eqb (OrderType order) "market"); simpl;
      (unfold checkDailyLoss, firesDailyLoss, orderValueOf;
       destruct (MaxDailyLoss (params rm) <?
                   totalLoss (dailyStats rm) +
                   Amount order * Price order * 0.1)%float;
       reflexivity))).
Qed.

(** [CheckTradeRisk] runs the six checks, in order, from the fresh
    assessment. *)
Lemma CheckTradeRisk_checks (rm : BasicRiskManager) (order : Order) :
  CheckTradeRisk FormatFloat2 rm order =
  (Some (runChecks (sixChecks FormatFloat2 rm order) freshAssessment), None).
Proof.
  rewrite CheckTradeRisk_returns, checkPositionSize_checks,
    laterChecks_checks.
  unfold runChecks. rewrite <- fold_left_app.
  rewrite firstn_skipn. reflexivity.
Qed.

Lemma sixChecks_fired (rm : BasicRiskManager) (order : Order) :
  map fires (sixChecks FormatFloat2 rm order) = firedChecks rm order.
Proof. reflexivity. Qed.

(** What a run of checks leaves in each field of the assessment. *)
Lemma runChecks_factors (cs : list Check) (a : RiskAssessment) :
  RiskFactors (runChecks cs a) =
  (RiskFactors a ++ map factor (filter (fun c => fires c = true) cs))%list.
Proof.
  revert a. induction cs as [|c cs IH]; intros a; simpl.
  - rewrite app_nil_r. reflexivity.
  - unfold runChecks in *. simpl. rewrite IH. unfold applyCheck.
    rewrite filter_cons.
    destruct (fires c); simpl.
    + destruct (decide (true = true)) as [_|n]; [|destruct n; reflexivity].
      simpl. rewrite <- app_assoc. reflexivity.
    + destruct (decide (false = true)) as [e|_]; [discriminate e|].
      reflexivity.
Qed.

Lemma runChecks_recommendations (cs : list Check) (a : RiskAssessment) :
  Recommendations (runChecks cs a) =
  (Recommendations a ++
     map recommendation (filter (fun c => fires c = true) cs))%list.
Proof.
  revert a. induction cs as [|c cs IH]; intros a; simpl.
  - rewrite app_nil_r. reflexivity.
  - unfold runChecks in *. simpl. rewrite IH. unfold applyCheck.
    rewrite filter_cons.
    destruct (fires c); simpl.
    + destruct (decide (true = true)) as [_|n]; [|destruct n; reflexivity].
      simpl. rewrite <- app_assoc. reflexivity.
    + destruct (decide (false = true)) as [e|_]; [discriminate e|].
      reflexivity.
Qed.

Lemma count_fired (bs : list bool) (cs : list Check) :
  map fires cs = bs ->
  length (filter (fun c => fires c = true) cs) =
  length (filter (fun b : bool => b = true) bs).
Proof.
  intros <-. induction cs as [|c cs IH]; [reflexivity|].
  simpl. rewrite !filter_cons.
  destruct (fires c); simpl.
  - destruct (decide (true = true)) as [_|n]; [|destruct n; reflexivity].
    simpl. rewrite IH. reflexivity.
  - destruct (decide (false = true)) as [e|_]; [discriminate e|]. exact IH.
Qed.

Lemma runChecks_none (cs : list Check) (a : RiskAssessment) :
  Forall (fun b : bool => b = false) (map fires cs) -> runChecks cs a = a.
Proof.
  unfold runChecks. revert a. induction cs as [|c cs IH]; intros a H.
  - reflexivity.
  - simpl in H. apply Forall_cons in H. destruct H as [Hc H].
    simpl. unfold applyCheck at 2. rewrite Hc. apply IH. exact H.
Qed.

(** C3: the evaluation never returns an error, and for an order that
    triggers none of the six checks it returns the default assessment:
    acceptable, level zero, no factor, no recommendation. *)
Theorem CheckTradeRisk_never_fails (rm : BasicRiskManager) (order : Order) :
  exists a : RiskAssessment,
    CheckTradeRisk FormatFloat2 rm order = (Some a, None) /\
    (noCheckFires rm order ->
     a = {| IsAcceptable := true; RiskLevel := 0%float;
            RiskFactors := []; Recommendations := [] |}).
Proof.
  eexists. split; [apply CheckTradeRisk_checks|].
  unfold noCheckFires. rewrite <- sixChecks_fired. intros H.
  rewrite (runChecks_none _ _ H). reflexivity.
Qed.

(** C10: the factors and the recommendations of an assessment have the
    same length, the number of the checks that fired. *)
Theorem CheckTradeRisk_lists_same_length
    (rm : BasicRiskManager) (order : Order) :
  exists a : RiskAssessment,
    CheckTradeRisk FormatFloat2 rm order = (Some a, None) /\
    length (RiskFactors a) = countFired rm order /\
    length (Recommendations a) = countFired rm order /\
    length (RiskFactors a) = length (Recommendations a).
Proof.
  eexists. split; [apply CheckTradeRisk_checks|].
  rewrite runChecks_factors, runChecks_recommendations. simpl.
  rewrite !length_map. unfold countFired.
  rewrite (count_fired (firedChecks rm order)
             (sixChecks FormatFloat2 rm order) (sixChecks_fired rm order)).
  repeat split; reflexivity.
Qed.

(** C6: a market order that triggers no other check is acceptable, with
    level 0.1 and one factor; one whose value also exceeds MaxPositionSize,
    and that triggers nothing else, is rejected with level 0.4 and two
    factors. *)
Theorem CheckTradeRisk_market_order (rm : BasicRiskManager) (order : Order) :
  exists a : RiskAssessment,
    CheckTradeRisk FormatFloat2 rm order = (Some a, None) /\
    (onlyMarketFires rm order ->
     IsAcceptable a = true /\ RiskLevel a = 0.1%float /\
     RiskFactors a = [factorMarketOrder] /\
     length (RiskFactors a) = 1%nat) /\
    (sizeAndMarketFire rm order ->
     IsAcceptable a = false /\ RiskLevel a = 0.4%float /\
     RiskFactors a = [factorPositionSize; factorMarketOrder] /\
     length (RiskFactors a) = 2%nat).
Proof.
  eexists. split; [apply CheckTradeRisk_checks|].
  unfold onlyMarketFires, sizeAndMarketFire, firedChecks, sixChecks.
  split; intros H; injection H as H1 H2 H3 H4 H5 H6;
    rewrite H1, H2, H3, H4, H5, H6; repeat split; reflexivity.
Qed.

End CheckTradeRiskFacts.

(** The first two checks on the oversized order of the package's test. *)
Lemma CheckTradeRisk_size_or_loss_test :
  exists a : RiskAssessment,
    CheckTradeRisk noFormat testManager (testOrder 20 "limit")
      = (Some a, None) /\
    IsAcceptable a = false /\
    In factorPositionSize (RiskFactors a) /\
    ~ In factorTradeLoss (RiskFactors a).
Proof.
  destruct (CheckTradeRisk_size_or_loss noFormat testManager
              (testOrder 20 "limit")) as (a & E & Hsize & _ & _).
  exists a. split; [exact E|].
  apply Hsize. reflexivity.
Defined.

(** The safe order of the package's test. *)
Lemma CheckTradeRisk_never_fails_test :
  exists a : RiskAssessment,
    CheckTradeRisk noFormat testManager (testOrder 1 "limit")
      = (Some a, None) /\
    a = {| IsAcceptable := true; RiskLevel := 0%float;
           RiskFactors := []; Recommendations := [] |}.
Proof.
  destruct (CheckTradeRisk_never_fails noFormat testManager
              (testOrder 1 "limit")) as (a & E & H).
  exists a. split; [exact E|].
  apply H. unfold noCheckFires. vm_compute. repeat constructor.
Defined.

(** The two market orders of the package's test. *)
Lemma CheckTradeRisk_market_order_test :
  (exists a : RiskAssessment,
     CheckTradeRisk noFormat testManager (testOrder 1 "market")
       = (Some a, None) /\
     IsAcceptable a = true /\ RiskLevel a = 0.1%float /\
     RiskFactors a = [factorMarketOrder] /\
     length (RiskFactors a) = 1%nat) /\
  (exists a : RiskAssessment,
     CheckTradeRisk noFormat testManager (testOrder 15 "market")
       = (Some a, None) /\
     IsAcceptable a = false /\ RiskLevel a = 0.4%float /\
     RiskFactors a = [factorPositionSize; factorMarketOrder] /\
     length (RiskFactors a) = 2%nat).
Proof.
  split.
  - destruct (CheckTradeRisk_market_order noFormat testManager
                (testOrder 1 "market")) as (a & E & H & _).
    exists a. split; [exact E|]. apply H. reflexivity.
  - destruct (CheckTradeRisk_market_order noFormat testManager
                (testOrder 15 "market")) as (a & E & _ & H).
    exists a. split; [exact E|]. apply H. reflexivity.
Defined.

(** ** The monitor and the daily statistics *)









End RiskFacts.

(** * The collector *)

Module CollectorFacts.

Import Models Collector CollectorTerms.

(** ** [CollectTokenInfo] *)

Lemma collectTokenInfoFrom_failures (symbol : string)
    (failed rest : list DataSource) (log : list LogEntry) :
  Forall (fun s => ~ tokenInfoSucceeds symbol s) failed ->
  collectTokenInfoFrom (failed ++ rest) symbol log =
  collectTokenInfoFrom rest symbol
    (log ++ map (tokenFailureEntry symbol) failed).
Proof.
  intros H. revert log. induction H as [|s failed Hs _ IH]; intros log.
  - simpl. rewrite app_nil_r. reflexivity.
  - simpl. unfold tokenInfoSucceeds in Hs.
    destruct (SourceTokenInfo s symbol) as [result err] eqn:E.
    destruct err as [e|]; [|destruct result as [info|]].
    + rewrite IH. rewrite <- app_assoc. unfold tokenFailureEntry at 2.
      rewrite E. reflexivity.
    + exfalso. apply Hs. exists info. reflexivity.
    + rewrite IH. rewrite <- app_assoc. unfold tokenFailureEntry at 2.
      rewrite E. reflexivity.
Qed.

Lemma collectTokenInfoFrom_error (symbol : string) (rest : list DataSource)
    (log : list LogEntry) :
  fst (collectTokenInfoFrom rest symbol log) = (None, Some errTokenInfo) <->
  Forall (fun s => ~ tokenInfoSucceeds symbol s) rest.
Proof.
  revert log. induction rest as [|s rest IH]; intros log; simpl.
  - split; [constructor|reflexivity].
  - unfold tokenInfoSucceeds at 1.
    destruct (SourceTokenInfo s symbol) as [result err] eqn:E.
    destruct err as [e|]; [|destruct result as [info|]].
    + rewrite IH. split.
      * intros H. constructor; [|exact H]. intros [info Hinfo].
        rewrite E in Hinfo. discriminate Hinfo.
      * intros H. inversion H. assumption.
    + simpl. split; [intros H; discriminate H|].
      intros H. inversion H as [|? ? Hs _]. subst. exfalso. apply Hs.
      exists info. exact E.
    + rewrite IH. split.
      * intros H. constructor; [|exact H]. intros [info Hinfo].
        rewrite E in Hinfo. discriminate Hinfo.
      * intros H. inversion H. assumption.
Qed.

(** C4: the sources are tried in the order of their registration and the
    result of the first that succeeds is returned, the failures before it
    being logged and nothing more; the error is returned exactly when every
    source fails, which includes the collector without sources. *)
Theorem CollectTokenInfo_first_success
    (c : MultiSourceCollector) (symbol : string) (log : list LogEntry) :
  (forall (failed rest : list DataSource) (source : DataSource)
          (info : TokenInfo),
     sources c = (failed ++ source :: rest)%list ->
     Forall (fun s => ~ tokenInfoSucceeds symbol s) failed ->
     SourceTokenInfo source symbol = (Some info, None) ->
     CollectTokenInfo c symbol log =
     ((Some info, None),
      (log ++ map (tokenFailureEntry symbol) failed
           ++ [tokenSuccessEntry symbol source])%list)) /\
  (fst (CollectTokenInfo c symbol log) = (None, Some errTokenInfo) <->
   Forall (fun s => ~ tokenInfoSucceeds symbol s) (sources c)) /\
  (sources c = [] ->
   fst (CollectTokenInfo c symbol log) = (None, Some errTokenInfo)).
Proof.
  unfold CollectTokenInfo. split; [|split].
  - intros failed rest source info Hc Hfailed Hsource.
    rewrite Hc, (collectTokenInfoFrom_failures symbol failed _ log Hfailed).
    simpl. rewrite Hsource. rewrite <- app_assoc. reflexivity.
  - apply collectTokenInfoFrom_error.
  - intros ->. reflexivity.
Qed.

(** The two collectors of the spec: [A] fails and [B] succeeds, and both
    fail. *)
Lemma CollectTokenInfo_first_success_test :
  fst (CollectTokenInfo
         (NewMultiSourceCollector [failingSource "A"; twitterSource])
         "BTC" [])
    = (Some (sampleToken "BTC"), None) /\
  fst (CollectTokenInfo
         (NewMultiSourceCollector [failingSource "A"; failingSource "B"])
         "BTC" [])
    = (None, Some errTokenInfo).
Proof.
  split.
  - destruct (CollectTokenInfo_first_success
                (NewMultiSourceCollector [failingSource "A"; twitterSource])
                "BTC" []) as [Hfirst _].
    rewrite (Hfirst [failingSource "A"] [] twitterSource (sampleToken "BTC")).
    + reflexivity.
    + reflexivity.
    + constructor; [|constructor]. intros [info H]. discriminate H.
    + reflexivity.
  - destruct (CollectTokenInfo_first_success
                (NewMultiSourceCollector
                   [failingSource "A"; failingSource "B"])
                "BTC" []) as (_ & Hall & _).
    apply Hall.
    constructor; [intros [info H]; discriminate H|].
    constructor; [intros [info H]; discriminate H|].
    constructor.
Defined.

(** ** [CollectSocialMetrics] *)

(** Storing every entry of a map is the union that prefers that map. *)
Lemma mergeInto_union (results metrics : gmap string float) :
  mergeInto results metrics = metrics ∪ results.
Proof.
  unfold mergeInto.
  apply (map_fold_weak_ind
           (fun (r : gmap string float) (m : gmap string float) =>
              r = m ∪ results)).
  - rewrite (left_id ∅ (∪)). reflexivity.
  - intros k v m r _ ->. rewrite insert_union_l. reflexivity.
Qed.

(** The accumulator of the goroutines is [mergeAll], whatever is logged. *)
Lemma socialWorkers_merge (symbol : string) (order : list DataSource)
    (acc : gmap string float) (log : list LogEntry) :
  fst (fold_left (socialWorker symbol) order (acc, log)) =
  mergeAll symbol order acc.
Proof.
  unfold mergeAll. revert acc log.
  induction order as [|s order IH]; intros acc log; [reflexivity|].
  simpl. destruct (SourceSocialMetrics s symbol) as [metrics [e|]]; simpl.
  - apply IH.
  - rewrite IH, mergeInto_union. reflexivity.
Qed.

Lemma collectSocialMetricsIn_result (symbol : string)
    (order : list DataSource) (log : list LogEntry) :
  fst (collectSocialMetricsIn order symbol log) =
  if decide (mergeAll symbol order ∅ = ∅)
  then (None, Some errSocialMetrics)
  else (Some (mergeAll symbol order ∅), None).
Proof.
  unfold collectSocialMetricsIn.
  rewrite <- (socialWorkers_merge symbol order ∅ log).
  destruct (fold_left (socialWorker symbol) order (∅, log))
    as [results log'] eqn:E.
  simpl. destruct (Nat.eqb (size results) 0) eqn:Es.
  - apply Nat.eqb_eq, map_size_empty_iff in Es.
    destruct (decide (results = ∅)); [reflexivity|contradiction].
  - apply Nat.eqb_neq in Es.
    destruct (decide (results = ∅)) as [->|]; [|reflexivity].
    exfalso. apply Es. apply map_size_empty_iff. reflexivity.
Qed.

Lemma mergeAll_step (symbol : string) (s : DataSource)
    (order : list DataSource) (acc : gmap string float) :
  mergeAll symbol (s :: order) acc =
  mergeAll symbol order
    (match snd (SourceSocialMetrics s symbol) with
     | None => fst (SourceSocialMetrics s symbol) ∪ acc
     | Some _ => acc
     end).
Proof. reflexivity. Qed.

(** Every entry of the merged map was stored before or comes from a
    source that succeeded. *)
Lemma mergeAll_lookup (symbol : string) (order : list DataSource)
    (acc : gmap string float) (k : string) (v : float) :
  mergeAll symbol order acc !! k = Some v ->
  acc !! k = Some v \/
  exists s : DataSource, In s order /\ contributes symbol s k v.
Proof.
  revert acc. induction order as [|s order IH]; intros acc H.
  - left. exact H.
  - rewrite mergeAll_step in H. apply IH in H.
    destruct H as [H|(s' & Hin & Hs')].
    + destruct (snd (SourceSocialMetrics s symbol)) as [e|] eqn:E.
      * left. exact H.
      * apply lookup_union_Some_raw in H. destruct H as [H|[_ H]].
        -- right. exists s. split; [left; reflexivity|]. split; assumption.
        -- left. exact H.
    + right. exists s'. split; [right; exact Hin|exact Hs'].
Qed.

(** Every key stored before, or given by a source that succeeded, is in
    the merged map. *)
Lemma mergeAll_keeps_keys (symbol : string) (order : list DataSource)
    (acc : gmap string float) (k : string) :
  (is_Some (acc !! k) \/
   exists (s : DataSource) (v : float),
     In s order /\ contributes symbol s k v) ->
  is_Some (mergeAll symbol order acc !! k).
Proof.
  revert acc. induction order as [|s order IH]; intros acc H.
  - destruct H as [H|(s & v & [] & _)]. exact H.
  - rewrite mergeAll_step. apply IH.
    destruct H as [H|(s' & v & [<-|Hin] & Hsucc & Hv)].
    + left. destruct (snd (SourceSocialMetrics s symbol)); [exact H|].
      apply lookup_union_is_Some. right. exact H.
    + left. unfold socialMetricsSucceeds in Hsucc. rewrite Hsucc.
      apply lookup_union_is_Some. left. exists v. exact Hv.
    + right. exists s', v. split; [exact Hin|]. split; assumption.
Qed.

(** The merged map is empty exactly when nothing was stored before and no
    source brings an entry. *)
Lemma mergeAll_empty (symbol : string) (order : list DataSource)
    (acc : gmap string float) :
  mergeAll symbol order acc = ∅ <->
  acc = ∅ /\ Forall (emptyHanded symbol) order.
Proof.
  revert acc. induction order as [|s order IH]; intros acc.
  - simpl. split; [intros ->; split; [reflexivity|constructor]|].
    intros [-> _]. reflexivity.
  - rewrite mergeAll_step, IH. unfold emptyHanded, socialMetricsSucceeds.
    destruct (snd (SourceSocialMetrics s symbol)) as [e|] eqn:E; split.
    + intros [-> H]. split; [reflexivity|].
      constructor; [left; rewrite E; discriminate|exact H].
    + intros [-> H]. inversion H. split; [reflexivity|assumption].
    + intros [Hu H]. pose proof (map_positive_l _ _ Hu) as Hm.
      rewrite Hm, (left_id ∅ (∪)) in Hu.
      split; [exact Hu|]. constructor; [right; exact Hm|exact H].
    + intros [-> H]. inversion H as [|? ? [Hs|Hs] H']; subst.
      * exfalso. apply Hs. exact E.
      * rewrite Hs, (left_id ∅ (∪)). split; [reflexivity|exact H'].
Qed.

(** Some result exists: the goroutines complete in some order. *)
Lemma CollectSocialMetrics_returns (c : MultiSourceCollector)
    (symbol : string) (log : list LogEntry) :
  exists res, CollectSocialMetrics c symbol log res.
Proof.
  exists (collectSocialMetricsIn (sources c) symbol log), (sources c).
  split; [apply Permutation_refl|reflexivity].
Qed.

(** C5: in whatever order the sources complete, the result is the error
    exactly when the merge is empty, that is when every source failed or
    answered with an empty map; otherwise it is one map whose keys are the
    keys of the sources that succeeded, each value taken from one of them.
    For two sources with disjoint keys the merge is the union of their
    maps, returned unless it is empty. *)
Theorem CollectSocialMetrics_merge
    (c : MultiSourceCollector) (symbol : string) (log : list LogEntry)
    (res : (option (gmap string float) * option error) * list LogEntry) :
  CollectSocialMetrics c symbol log res ->
  (fst res = (None, Some errSocialMetrics) <->
   Forall (emptyHanded symbol) (sources c)) /\
  (fst res = (None, Some errSocialMetrics) \/
   exists m : gmap string float,
     fst res = (Some m, None) /\ m <> ∅ /\
     (forall k : string,
        is_Some (m !! k) <->
        exists (s : DataSource) (v : float),
          In s (sources c) /\ contributes symbol s k v) /\
     (forall (k : string) (v : float),
        m !! k = Some v ->
        exists s : DataSource,
          In s (sources c) /\ contributes symbol s k v)) /\
  (forall (s1 s2 : DataSource) (m1 m2 : gmap string float),
     sources c = [s1; s2] ->
     SourceSocialMetrics s1 symbol = (m1, None) ->
     SourceSocialMetrics s2 symbol = (m2, None) ->
     m1 ##ₘ m2 ->
     fst res = if decide (m1 ∪ m2 = ∅)
               then (None, Some errSocialMetrics)
               else (Some (m1 ∪ m2), None)).
Proof.
  intros (order & Hperm & ->).
  rewrite collectSocialMetricsIn_result.
  assert (Hin : forall s, In s order <-> In s (sources c)).
  { intros s. split; apply Permutation_in;
      [apply Permutation_sym|]; exact Hperm. }
  split; [|split].
  - destruct (decide (mergeAll symbol order ∅ = ∅)) as [He|Hne].
    + split; [|reflexivity]. intros _.
      apply mergeAll_empty in He. destruct He as [_ He].
      apply (Permutation_Forall (Permutation_sym Hperm)). exact He.
    + split; [intros H; discriminate H|]. intros H. exfalso. apply Hne.
      apply mergeAll_empty. split; [reflexivity|].
      apply (Permutation_Forall Hperm). exact H.
  - destruct (decide (mergeAll symbol order ∅ = ∅)) as [He|Hne];
      [left; reflexivity|right].
    exists (mergeAll symbol order ∅).
    split; [reflexivity|]. split; [exact Hne|]. split.
    + intros k. split.
      * intros [v Hv]. apply mergeAll_lookup in Hv.
        destruct Hv as [Hv|(s & Hs & Hc)].
        -- rewrite lookup_empty in Hv. discriminate Hv.
        -- exists s, v. split; [apply Hin; exact Hs|exact Hc].
      * intros (s & v & Hs & Hc). apply mergeAll_keeps_keys.
        right. exists s, v. split; [apply Hin; exact Hs|exact Hc].
    + intros k v Hv. apply mergeAll_lookup in Hv.
      destruct Hv as [Hv|(s & Hs & Hc)].
      * rewrite lookup_empty in Hv. discriminate Hv.
      * exists s. split; [apply Hin; exact Hs|exact Hc].
  - intros s1 s2 m1 m2 Hc H1 H2 Hdisj.
    rewrite Hc in Hperm. apply Permutation_length_2_inv in Hperm.
    assert (Hm : mergeAll symbol order ∅ = m1 ∪ m2).
    { destruct Hperm as [-> | ->]; unfold mergeAll; simpl;
        rewrite H1, H2; simpl; rewrite (right_id ∅ (∪)).
      - symmetry. apply map_union_comm. exact Hdisj.
      - reflexivity. }
    rewrite Hm. reflexivity.
Qed.

(** The two sources of the spec, [{"twitter": 1.0}] and
    [{"reddit": 2.0}], the second completing first: the result is the
    union of the two maps. *)
Lemma CollectSocialMetrics_merge_test :
  fst (collectSocialMetricsIn [redditSource; twitterSource] "BTC" []) =
  (Some ({[ "twitter" := 1%float ]} ∪ {[ "reddit" := 2%float ]}), None).
Proof.
  assert (Hres : CollectSocialMetrics
                   (NewMultiSourceCollector [twitterSource; redditSource])
                   "BTC" []
                   (collectSocialMetricsIn [redditSource; twitterSource]
                      "BTC" [])).
  { exists [redditSource; twitterSource].
    split; [apply perm_swap|reflexivity]. }
  destruct (CollectSocialMetrics_merge
              (NewMultiSourceCollector [twitterSource; redditSource])
              "BTC" [] _ Hres) as (_ & _ & Hunion).
  rewrite (Hunion twitterSource redditSource
             {[ "twitter" := 1%float ]} {[ "reddit" := 2%float ]}).
  - destruct (decide (_ = ∅)) as [H|_]; [|reflexivity].
    apply (f_equal (fun m => m !! "twitter")) in H.
    vm_compute in H. discriminate H.
  - reflexivity.
  - reflexivity.
  - reflexivity.
  - apply map_disjoint_singleton_l_2. apply lookup_singleton_ne.
    discriminate.
Defined.

End CollectorFacts.

(** * More on the risk engine *)

Module RiskMoreFacts.

Import Trading Risk RiskTerms RiskMoreTerms Float64 Float64Facts Float64More.
Import RiskFacts.

(** ** What the six checks leave in the assessment *)

Lemma filter_fires_cons (c : Check) (cs : list Check) :
  filter (fun c => fires c = true) (c :: cs) =
  if fires c then c :: filter (fun c => fires c = true) cs
  else filter (fun c => fires c = true) cs.
Proof.
  rewrite filter_cons. destruct (fires c).
  - destruct (decide (true = true)) as [_|n]; [reflexivity|].
    destruct n. reflexivity.
  - destruct (decide (false = true)) as [e|_]; [discriminate e|].
    reflexivity.
Qed.

Lemma runChecks_acceptable (cs : list Check) (a : RiskAssessment) :
  IsAcceptable (runChecks cs a) =
  IsAcceptable a && forallb (fun c => negb (fires c && rejects c)) cs.
Proof.
  unfold runChecks. revert a. induction cs as [|c cs IH]; intros a.
  - simpl. rewrite andb_true_r. reflexivity.
  - simpl. rewrite IH. unfold applyCheck.
    destruct (fires c), (rejects c); simpl;
      rewrite ?andb_true_r, ?andb_false_r; try reflexivity.
Qed.

Lemma runChecks_level (cs : list Check) (a : RiskAssessment) :
  RiskLevel (runChecks cs a) =
  fold_left PrimFloat.add
    (map weight (filter (fun c => fires c = true) cs)) (RiskLevel a).
Proof.
  unfold runChecks. revert a. induction cs as [|c cs IH]; intros a.
  - reflexivity.
  - simpl fold_left at 1. rewrite IH, filter_fires_cons. unfold applyCheck.
    destruct (fires c); reflexivity.
Qed.

Lemma selectFired_filter {A : Type} (f : Check -> A) (cs : list Check) :
  map f (filter (fun c => fires c = true) cs) =
  selectFired (map fires cs) (map f cs).
Proof.
  induction cs as [|c cs IH]; [reflexivity|].
  rewrite filter_fires_cons. simpl. destruct (fires c); simpl;
    rewrite IH; reflexivity.
Qed.

Lemma selectFired_elem {A : Type} (bs : list bool) (xs : list A) (x : A) :
  x ∈ selectFired bs xs -> x ∈ xs.
Proof.
  revert bs. induction xs as [|y xs IH]; intros bs H.
  - destruct bs; simpl in H; exact H.
  - destruct bs as [|[|] bs]; simpl in H.
    + inversion H.
    + apply elem_of_cons in H. apply elem_of_cons.
      destruct H as [H|H]; [left; exact H|right; exact (IH bs H)].
    + apply elem_of_cons. right. exact (IH bs H).
Qed.

Lemma selectFired_NoDup {A : Type} (bs : list bool) (xs : list A) :
  NoDup xs -> NoDup (selectFired bs xs).
Proof.
  intros H. revert bs. induction H as [|y xs Hy _ IH]; intros bs.
  - destruct bs; constructor.
  - destruct bs as [|[|] bs]; simpl.
    + constructor.
    + constructor; [|apply IH]. intros Hin. apply Hy.
      exact (selectFired_elem bs xs y Hin).
    + apply IH.
Qed.

Lemma factorTexts_NoDup : NoDup factorTexts.
Proof.
  apply (bool_decide_unpack (NoDup factorTexts)). vm_compute. exact I.
Qed.

Section SixChecksFacts.

Variable FormatFloat2 : float -> string.

(** An order is acceptable exactly when none of the four rejecting checks
    fires: the position size, the loss of the trade, the daily loss, the
    daily volume.  A market order and a high frequency add to the level
    and never reject. *)
Theorem CheckTradeRisk_acceptable (rm : BasicRiskManager) (order : Order) :
  exists a : RiskAssessment,
    CheckTradeRisk FormatFloat2 rm order = (Some a, None) /\
    IsAcceptable a = negb (rejectingCheckFires rm order).
Proof.
  eexists. split; [apply CheckTradeRisk_checks|].
  rewrite runChecks_acceptable. unfold rejectingCheckFires. simpl.
  destruct (firesPositionSize rm order), (firesTradeLoss rm order),
    (firesDailyLoss rm order), (firesMarketOrder order),
    (firesVolume rm order), (firesFrequency rm); reflexivity.
Qed.

(** The factors of an assessment are the texts of the checks that fired,
    each once and in the order of the checks; the level is the sum of
    their weights added in that order from zero. *)
Theorem CheckTradeRisk_factors_in_order
    (rm : BasicRiskManager) (order : Order) :
  exists a : RiskAssessment,
    CheckTradeRisk FormatFloat2 rm order = (Some a, None) /\
    RiskFactors a = selectFired (firedChecks rm order) factorTexts /\
    NoDup (RiskFactors a) /\
    RiskLevel a = addWeights (selectFired (firedChecks rm order) checkWeights).
Proof.
  eexists. split; [apply CheckTradeRisk_checks|].
  assert (Hf : RiskFactors
                 (runChecks (sixChecks FormatFloat2 rm order) freshAssessment)
               = selectFired (firedChecks rm order) factorTexts).
  { rewrite runChecks_factors, selectFired_filter. reflexivity. }
  split; [exact Hf|]. split.
  - rewrite Hf. apply selectFired_NoDup, factorTexts_NoDup.
  - rewrite runChecks_level, selectFired_filter. reflexivity.
Qed.

(** The level of an assessment lies between 0 and 1: at most one of the
    first two checks fires, and the weights of five checks add up to 1 at
    most. *)
Theorem CheckTradeRisk_level_bounds (rm : BasicRiskManager) (order : Order) :
  exists a : RiskAssessment,
    CheckTradeRisk FormatFloat2 rm order = (Some a, None) /\
    (0 <=? RiskLevel a)%float = true /\ (RiskLevel a <=? 1)%float = true.
Proof.
  eexists. split; [apply CheckTradeRisk_checks|].
  rewrite runChecks_level. unfold sixChecks, firesTradeLoss.
  rewrite !filter_fires_cons. cbn [fires].
  destruct (firesPositionSize rm order);
    cbn [negb andb];
    [|destruct (String.eqb (Side order) "buy"
                && (MaxLossPerTrade (params rm) <?
                      orderValueOf order * 0.1)%float)];
    destruct (firesDailyLoss rm order), (firesMarketOrder order),
      (firesVolume rm order), (firesFrequency rm);
    split; vm_compute; reflexivity.
Qed.

End SixChecksFacts.

(** ** NaN limits *)

(** The validation of [SetRiskParameters] lets NaN through: a set whose
    fields are NaN or above zero is accepted.  A NaN limit then switches
    its checks off: with a NaN MaxPositionSize neither the position size
    nor the daily volume is ever found too large, with a NaN
    MaxLossPerTrade or MaxDailyLoss no loss is. *)
Theorem SetRiskParameters_accepts_nan
    (rm : BasicRiskManager) (p : RiskParameters) (order : Order) :
  (nanOrPositive (MaxPositionSize p) -> nanOrPositive (MaxLossPerTrade p) ->
   nanOrPositive (MaxDailyLoss p) -> nanOrPositive (MaxLeverage p) ->
   nanOrPositive (MinLiquidity p) ->
   SetRiskParameters rm p = (withParams rm p, None)) /\
  (is_nan (MaxPositionSize (params rm)) ->
   firesPositionSize rm order = false /\ firesVolume rm order = false) /\
  (is_nan (MaxLossPerTrade (params rm)) -> firesTradeLoss rm order = false)
  /\
  (is_nan (MaxDailyLoss (params rm)) -> firesDailyLoss rm order = false).
Proof.
  assert (Hle : forall x, nanOrPositive x -> (x <=? 0)%float = false).
  { intros x [H|H]; [apply nan_leb_l|apply ltb_leb_false]; exact H. }
  split; [|split; [|split]].
  - intros H1 H2 H3 H4 H5. unfold SetRiskParameters.
    rewrite (Hle _ H1), (Hle _ H2), (Hle _ H3), (Hle _ H4), (Hle _ H5).
    reflexivity.
  - intros H. unfold firesPositionSize, firesVolume. split.
    + apply nan_ltb_l. exact H.
    + apply nan_ltb_l. apply nan_mul_l. exact H.
  - intros H. unfold firesTradeLoss.
    rewrite (nan_ltb_l _ _ H), andb_false_r, andb_false_r. reflexivity.
  - intros H. unfold firesDailyLoss. apply nan_ltb_l. exact H.
Qed.

(** The set of NaN limits is accepted, and the engine then accepts an
    order a thousand times the size the test's engine allows. *)
Lemma SetRiskParameters_accepts_nan_test :
  SetRiskParameters testManager nanParams
    = (withParams testManager nanParams, None) /\
  firesPositionSize (withParams testManager nanParams)
    (testOrder 10000 "limit") = false /\
  firesVolume (withParams testManager nanParams)
    (testOrder 10000 "limit") = false.
Proof.
  destruct (SetRiskParameters_accepts_nan testManager nanParams
              (testOrder 10000 "limit")) as (Hset & _).
  destruct (SetRiskParameters_accepts_nan
              (withParams testManager nanParams) nanParams
              (testOrder 10000 "limit")) as (_ & Hsize & _).
  split.
  - apply Hset; left; reflexivity.
  - apply Hsize. reflexivity.
Defined.

(** ** The monitor *)

Lemma checkPosition_alertFor (rm : BasicRiskManager) (now : Time)
    (buffer : list RiskAlert) (pos : Position) :
  checkPosition rm now buffer pos =
  if (UnrealizedPnL pos <? - MaxLossPerTrade (params rm))%float
  then trySend buffer (alertFor now pos) else buffer.
Proof. reflexivity. Qed.

(** When nothing is received from the channel meanwhile, the loop over
    the positions appends to it one alert for each position whose loss
    exceeds MaxLossPerTrade, in the order of the positions, as many as
    fit under the capacity of 100, and drops the others; what was in the
    channel stays in front, and the channel never grows beyond its
    capacity. *)
Theorem checkPositions_fills (rm : BasicRiskManager) (now : Time)
    (positions : list Position) (buffer : list RiskAlert) :
  fold_left (checkPosition rm now) positions buffer =
    (buffer ++ firstn (100 - length buffer)
                 (alertsDue rm now positions))%list /\
  ((length buffer <= 100)%nat ->
   (length (fold_left (checkPosition rm now) positions buffer) <= 100)%nat).
Proof.
  assert (H : fold_left (checkPosition rm now) positions buffer =
              (buffer ++ firstn (100 - length buffer)
                           (alertsDue rm now positions))%list).
  { revert buffer. induction positions as [|pos rest IH]; intros buffer.
    - simpl. rewrite firstn_nil, app_nil_r. reflexivity.
    - simpl fold_left. rewrite IH, checkPosition_alertFor.
      unfold alertsDue. simpl flat_map. fold (alertsDue rm now rest).
      destruct (UnrealizedPnL pos <? - MaxLossPerTrade (params rm))%float;
        [|reflexivity].
      unfold trySend.
      destruct (Z.of_nat (length buffer) <? 100) eqn:Hlt.
      + apply Z.ltb_lt in Hlt. rewrite length_app. simpl length.
        replace (100 - length buffer)%nat
          with (S (100 - (length buffer + 1)))%nat by lia.
        simpl. rewrite <- app_assoc. reflexivity.
      + apply Z.ltb_ge in Hlt.
        replace (100 - length buffer)%nat with 0%nat by lia.
        reflexivity. }
  split; [exact H|].
  intros Hle. rewrite H, length_app, length_firstn. lia.
Qed.

Lemma checkPositions_fills_test :
  fold_left (checkPosition testManager 7)
    [losingPosition "BTC" (-15000); losingPosition "ETH" (-500);
     losingPosition "SOL" (-1200)] []
  = [alertFor 7 (losingPosition "BTC" (-15000));
     alertFor 7 (losingPosition "SOL" (-1200))] /\
  Nat.le
    (length (fold_left (checkPosition testManager 7)
               [losingPosition "BTC" (-15000)]
               (repeat (alertFor 0 (losingPosition "OLD" (-2000))) 100)))
    100.
Proof.
  split.
  - rewrite (proj1 (checkPositions_fills testManager 7 _ [])). reflexivity.
  - apply (checkPositions_fills testManager 7). vm_compute. constructor.
Defined.

(** As the positions are not read yet ([getCurrentPositions] gives none),
    a monitor never sends an alert and never touches the parameters,
    whatever events it takes. *)
Theorem monitor_never_alerts (rm : BasicRiskManager) (m : Monitor)
    (events : list Event) :
  alerts (snd (monitorLoop rm m events)) = alerts m /\
  params (fst (monitorLoop rm m events)) = params rm.
Proof.
  revert rm m. induction events as [|ev rest IH]; intros rm m.
  - split; reflexivity.
  - simpl. destruct ev as [|now|now]; simpl.
    + split; reflexivity.
    + destruct (closed m); [split; reflexivity|].
      destruct (IH (resetDailyStats rm now) m) as [Ha Hp].
      split; [exact Ha|exact Hp].
    + destruct (closed m); [split; reflexivity|].
      destruct (IH rm {| alerts := alerts m; closed := false;
                         ticker := ticker m; dayReset := dayReset m |})
        as [Ha Hp].
      split; [exact Ha|exact Hp].
Qed.

(** The cancellation ends the loop: the channel is closed, and the events
    that come after [ctx.Done()] change nothing, neither the statistics
    nor the channel. *)
Theorem monitor_stops_at_cancellation (rm : BasicRiskManager) (m : Monitor)
    (before after : list Event) :
  monitorLoop rm m (before ++ CtxDone :: after) =
  monitorLoop rm m (before ++ [CtxDone]) /\
  closed (snd (monitorLoop rm m (before ++ CtxDone :: after))) = true.
Proof.
  revert rm m. induction before as [|ev rest IH]; intros rm m.
  - split; reflexivity.
  - simpl. destruct (monitorStep rm m ev) as [rm' m'].
    destruct (closed m') eqn:E.
    + split; [reflexivity|exact E].
    + apply IH.
Qed.

End RiskMoreFacts.

(** * The market data of the collector *)

Module MarketFeedFacts.

Import Models Collector CollectorTerms MarketFeed MarketFeedTerms.

(** ** [CollectMarketData] *)

Lemma collectMarketDataFrom_failures (symbol : string)
    (failed rest : list DataSource) (log : list LogEntry) :
  Forall (fun s => ~ marketDataSucceeds symbol s) failed ->
  collectMarketDataFrom (failed ++ rest) symbol log =
  collectMarketDataFrom rest symbol
    (log ++ map (marketFailureEntry symbol) failed).
Proof.
  intros H. revert log. induction H as [|s failed Hs _ IH]; intros log.
  - simpl. rewrite app_nil_r. reflexivity.
  - simpl. unfold marketDataSucceeds in Hs.
    destruct (SourceMarketData s symbol) as [result err] eqn:E.
    destruct err as [e|]; [|destruct result as [data|]].
    + rewrite IH. rewrite <- app_assoc. unfold marketFailureEntry at 2.
      rewrite E. reflexivity.
    + exfalso. apply Hs. exists data. reflexivity.
    + rewrite IH. rewrite <- app_assoc. unfold marketFailureEntry at 2.
      rewrite E. reflexivity.
Qed.

Lemma collectMarketDataFrom_error (symbol : string) (rest : list DataSource)
    (log : list LogEntry) :
  fst (collectMarketDataFrom rest symbol log) = (None, Some errMarketData)
  <-> Forall (fun s => ~ marketDataSucceeds symbol s) rest.
Proof.
  revert log. induction rest as [|s rest IH]; intros log; simpl.
  - split; [constructor|reflexivity].
  - unfold marketDataSucceeds at 1.
    destruct (SourceMarketData s symbol) as [result err] eqn:E.
    destruct err as [e|]; [|destruct result as [data|]].
    + rewrite IH. split.
      * intros H. constructor; [|exact H]. intros [data Hdata].
        rewrite E in Hdata. discriminate Hdata.
      * intros H. inversion H. assumption.
    + simpl. split; [intros H; discriminate H|].
      intros H. inversion H as [|? ? Hs _]. subst. exfalso. apply Hs.
      exists data. exact E.
    + rewrite IH. split.
      * intros H. constructor; [|exact H]. intros [data Hdata].
        rewrite E in Hdata. discriminate Hdata.
      * intros H. inversion H. assumption.
Qed.

(** [CollectMarketData] returns the snapshot of the first source, in the
    order of registration, that gives one without error, logging one
    error for each source before it; it returns the error exactly when no
    source gives a snapshot without error.  A source that gives neither a
    snapshot nor an error is passed over like one that fails. *)
Theorem CollectMarketData_first_success
    (c : MultiSourceCollector) (symbol : string) (log : list LogEntry) :
  (forall (failed rest : list DataSource) (source : DataSource)
          (data : MarketData),
     sources c = (failed ++ source :: rest)%list ->
     Forall (fun s => ~ marketDataSucceeds symbol s) failed ->
     SourceMarketData source symbol = (Some data, None) ->
     CollectMarketData c symbol log =
     ((Some data, None),
      (log ++ map (marketFailureEntry symbol) failed
           ++ [marketSuccessEntry symbol source])%list)) /\
  (fst (CollectMarketData c symbol log) = (None, Some errMarketData) <->
   Forall (fun s => ~ marketDataSucceeds symbol s) (sources c)) /\
  (forall (source : DataSource) (rest : list DataSource),
     sources c = source :: rest ->
     SourceMarketData source symbol = (None, None) ->
     CollectMarketData c symbol log =
     collectMarketDataFrom rest symbol
       (log ++ [marketFailureEntry symbol source])).
Proof.
  unfold CollectMarketData. split; [|split].
  - intros failed rest source data Hc Hfailed Hsource.
    rewrite Hc, (collectMarketDataFrom_failures symbol failed _ log Hfailed).
    simpl. rewrite Hsource. rewrite <- app_assoc. reflexivity.
  - apply collectMarketDataFrom_error.
  - intros source rest -> Hnil. simpl. unfold marketFailureEntry.
    rewrite Hnil. reflexivity.
Qed.

(** A source that answers nothing, then one that succeeds. *)
Lemma CollectMarketData_first_success_test :
  fst (CollectMarketData
         (NewMultiSourceCollector [feedSource; feedSource]) "NIL" [])
    = (None, Some errMarketData) /\
  fst (CollectMarketData
         (NewMultiSourceCollector [failingSource "A"; feedSource]) "BTC" [])
    = (Some (sampleSnapshot "BTC"), None).
Proof.
  split.
  - destruct (CollectMarketData_first_success
                (NewMultiSourceCollector [feedSource; feedSource])
                "NIL" []) as (_ & Hall & _).
    apply Hall.
    constructor; [intros [d H]; discriminate H|].
    constructor; [intros [d H]; discriminate H|].
    constructor.
  - destruct (CollectMarketData_first_success
                (NewMultiSourceCollector [failingSource "A"; feedSource])
                "BTC" []) as (Hfirst & _).
    rewrite (Hfirst [failingSource "A"] [] feedSource (sampleSnapshot "BTC")).
    + reflexivity.
    + reflexivity.
    + constructor; [|constructor]. intros [d H]. discriminate H.
    + reflexivity.
Defined.

(** ** The loop of [SubscribeToMarketData] over the symbols *)

Lemma pollSymbols_step (src : DataSource) (symbol : string)
    (rest : list string) (st : list MarketData * list LogEntry) :
  pollSymbols src (symbol :: rest) st =
  match pollSymbol src st symbol with
  | None => None
  | Some st' => pollSymbols src rest st'
  end.
Proof. reflexivity. Qed.

(** The loop panics exactly when the source answers nothing, neither a
    snapshot nor an error, for one of the symbols. *)
Theorem pollSymbols_panics (src : DataSource) (symbols : list string)
    (out : list MarketData) (log : list LogEntry) :
  pollSymbols src symbols (out, log) = None <->
  Exists (answersNothing src) symbols.
Proof.
  revert out log. induction symbols as [|symbol rest IH]; intros out log.
  - simpl. split; [intros H; discriminate H|intros H; inversion H].
  - rewrite pollSymbols_step. unfold pollSymbol, answersNothing at 1.
    rewrite Exists_cons.
    destruct (SourceMarketData src symbol) as [data [e|]] eqn:E.
    + rewrite IH. split; [intros H; right; exact H|].
      intros [H|H]; [discriminate H|exact H].
    + destruct data as [d|].
      * destruct (Nat.ltb (length out) outCapacity); rewrite IH;
          (split; [intros H; right; exact H|]);
          (intros [H|H]; [discriminate H|exact H]).
      * split; [intros _; left; reflexivity|reflexivity].
Qed.

(** When it does not panic, and nothing is received from the channel
    meanwhile, the loop appends to the channel the snapshots the source
    gave without error, in the order of the symbols, as many as fit under
    the capacity of 100, and drops the others; what was in the channel
    stays in front.  So the channel never grows beyond its capacity. *)
Theorem pollSymbols_fills (src : DataSource) (symbols : list string)
    (out out' : list MarketData) (log log' : list LogEntry) :
  pollSymbols src symbols (out, log) = Some (out', log') ->
  out' = (out ++ firstn (outCapacity - length out)
                   (snapshotsOf src symbols))%list /\
  (length out <= outCapacity -> length out' <= outCapacity)%nat /\
  (length out + length (snapshotsOf src symbols) <= outCapacity ->
   out' = (out ++ snapshotsOf src symbols)%list)%nat.
Proof.
  intros H.
  assert (Hout : out' = (out ++ firstn (outCapacity - length out)
                                  (snapshotsOf src symbols))%list).
  { revert out log H.
    induction symbols as [|symbol rest IH]; intros out log H.
    - simpl in H. injection H as <- _. simpl.
      rewrite firstn_nil, app_nil_r. reflexivity.
    - rewrite pollSymbols_step in H. unfold pollSymbol in H.
      unfold snapshotsOf. simpl flat_map. fold (snapshotsOf src rest).
      destruct (SourceMarketData src symbol) as [data [e|]] eqn:E.
      + destruct data; apply IH in H; exact H.
      + destruct data as [d|]; [|discriminate H].
        destruct (Nat.ltb (length out) outCapacity) eqn:Hlt.
        * apply IH in H. rewrite H. apply Nat.ltb_lt in Hlt.
          rewrite length_app. simpl length.
          replace (outCapacity - length out)%nat
            with (S (outCapacity - (length out + 1)))%nat by lia.
          simpl. rewrite <- app_assoc. reflexivity.
        * apply IH in H. rewrite H. apply Nat.ltb_ge in Hlt.
          replace (outCapacity - length out)%nat with 0%nat by lia.
          reflexivity. }
  split; [exact Hout|]. split.
  - intros Hle. rewrite Hout, length_app, length_firstn. lia.
  - intros Hle. rewrite Hout. f_equal. apply firstn_all2. lia.
Qed.

(** A tick over three symbols, the second failing, on a channel with room
    and on a full one. *)
Lemma pollSymbols_fills_test :
  (exists log',
     pollSymbols feedSource ["BTC"; "BAD"; "ETH"] ([], []) =
     Some ([sampleSnapshot "BTC"; sampleSnapshot "ETH"], log')) /\
  (exists log',
     pollSymbols feedSource ["BTC"; "BAD"; "ETH"]
       (repeat (sampleSnapshot "OLD") 100, []) =
     Some (repeat (sampleSnapshot "OLD") 100, log')).
Proof.
  split.
  - destruct (pollSymbols feedSource ["BTC"; "BAD"; "ETH"] ([], []))
      as [[out' log']|] eqn:E; [|discriminate E].
    exists log'.
    destruct (pollSymbols_fills _ _ _ _ _ _ E) as (_ & _ & Hroom).
    rewrite Hroom; [reflexivity|]. vm_compute. lia.
  - destruct (pollSymbols feedSource ["BTC"; "BAD"; "ETH"]
                (repeat (sampleSnapshot "OLD") 100, []))
      as [[out' log']|] eqn:E; [|discriminate E].
    exists log'.
    destruct (pollSymbols_fills _ _ _ _ _ _ E) as (Hout & _ & _).
    rewrite Hout. vm_compute. reflexivity.
Defined.

(** A tick panics on the symbol for which the source answers nothing. *)
Lemma pollSymbols_panics_test :
  pollSymbols feedSource ["BTC"; "NIL"] ([], []) = None.
Proof.
  apply pollSymbols_panics. right. left. reflexivity.
Defined.

End MarketFeedFacts.

(** * More on the social metrics *)

Module SocialFacts.

Import Models Collector CollectorTerms CollectorFacts MarketFeed.

Lemma mergeAll_app (symbol : string) (before after : list DataSource)
    (acc : gmap string float) :
  mergeAll symbol (before ++ after) acc =
  mergeAll symbol after (mergeAll symbol before acc).
Proof. unfold mergeAll. apply fold_left_app. Qed.

(** The sources that do not report a key leave its entry as it is. *)
Lemma mergeAll_untouched (symbol : string) (after : list DataSource)
    (acc : gmap string float) (k : string) :
  Forall (fun s => socialMetricsSucceeds symbol s ->
                   fst (SourceSocialMetrics s symbol) !! k = None) after ->
  mergeAll symbol after acc !! k = acc !! k.
Proof.
  intros H. revert acc. induction H as [|s after Hs _ IH]; intros acc.
  - reflexivity.
  - rewrite mergeAll_step, IH. unfold socialMetricsSucceeds in Hs.
    destruct (snd (SourceSocialMetrics s symbol)) as [e|]; [reflexivity|].
    rewrite lookup_union_r; [reflexivity|]. apply Hs. reflexivity.
Qed.

(** The last writer wins: the value of a key in the result is the one
    given by the last source to store its map among those that report the
    key, whatever the sources before it gave; two sources that disagree on
    a key make the result depend on the order in which they complete. *)
Theorem CollectSocialMetrics_last_writer
    (symbol : string) (log : list LogEntry) :
  (forall (before after : list DataSource) (s : DataSource)
          (k : string) (v : float),
     contributes symbol s k v ->
     Forall (fun s' => socialMetricsSucceeds symbol s' ->
                       fst (SourceSocialMetrics s' symbol) !! k = None)
       after ->
     exists m : gmap string float,
       fst (collectSocialMetricsIn (before ++ s :: after) symbol log) =
         (Some m, None) /\
       m !! k = Some v) /\
  (forall (s1 s2 : DataSource) (k : string) (v1 v2 : float),
     contributes symbol s1 k v1 ->
     contributes symbol s2 k v2 ->
     exists m12 m21 : gmap string float,
       fst (collectSocialMetricsIn [s1; s2] symbol log) = (Some m12, None) /\
       fst (collectSocialMetricsIn [s2; s1] symbol log) = (Some m21, None) /\
       m12 !! k = Some v2 /\ m21 !! k = Some v1).
Proof.
  assert (Hlast : forall (before after : list DataSource) (s : DataSource)
                         (k : string) (v : float),
     contributes symbol s k v ->
     Forall (fun s' => socialMetricsSucceeds symbol s' ->
                       fst (SourceSocialMetrics s' symbol) !! k = None)
       after ->
     exists m : gmap string float,
       fst (collectSocialMetricsIn (before ++ s :: after) symbol log) =
         (Some m, None) /\
       m !! k = Some v).
  { intros before after s k v [Hs Hv] Hafter.
    rewrite collectSocialMetricsIn_result.
    assert (Hk : mergeAll symbol (before ++ s :: after) ∅ !! k = Some v).
    { rewrite mergeAll_app, mergeAll_step.
      rewrite (mergeAll_untouched symbol after _ k Hafter).
      unfold socialMetricsSucceeds in Hs. rewrite Hs.
      apply lookup_union_Some_l. exact Hv. }
    destruct (decide (mergeAll symbol (before ++ s :: after) ∅ = ∅))
      as [He|_].
    - rewrite He, lookup_empty in Hk. discriminate Hk.
    - eexists. split; [reflexivity|exact Hk]. }
  split; [exact Hlast|].
  intros s1 s2 k v1 v2 H1 H2.
  destruct (Hlast [s1] [] s2 k v2 H2 ltac:(constructor)) as (m12 & E12 & K12).
  destruct (Hlast [s2] [] s1 k v1 H1 ltac:(constructor)) as (m21 & E21 & K21).
  exists m12, m21. repeat split; assumption.
Qed.

(** Two sources that both report ["twitter"]: each completion order is a
    result of the collector, with the value of the source that stored
    last. *)
Lemma CollectSocialMetrics_last_writer_test :
  exists m12 m21 : gmap string float,
    fst (collectSocialMetricsIn
           [twitterSource; metricsSource "C" {[ "twitter" := 5%float ]}]
           "BTC" []) = (Some m12, None) /\
    fst (collectSocialMetricsIn
           [metricsSource "C" {[ "twitter" := 5%float ]}; twitterSource]
           "BTC" []) = (Some m21, None) /\
    m12 !! "twitter" = Some 5%float /\ m21 !! "twitter" = Some 1%float.
Proof.
  destruct (CollectSocialMetrics_last_writer "BTC" []) as [_ H].
  apply (H twitterSource (metricsSource "C" {[ "twitter" := 5%float ]})
           "twitter" 1%float 5%float).
  - split; [reflexivity|]. apply lookup_singleton_eq.
  - split; [reflexivity|]. apply lookup_singleton_eq.
Defined.

(** With the source of Binance alone, as the program registers it, the
    social metrics always fail: the placeholder succeeds with an empty
    map, and an empty merge is the error. *)
Theorem CollectSocialMetrics_binance_only
    (tokenInfo : string -> option TokenInfo * option error)
    (marketData : string -> option MarketData * option error)
    (symbol : string) (log : list LogEntry)
    (res : (option (gmap string float) * option error) * list LogEntry) :
  CollectSocialMetrics
    (NewMultiSourceCollector [NewBinanceDataSource tokenInfo marketData])
    symbol log res ->
  fst res = (None, Some errSocialMetrics) /\
  snd res =
    (log ++ [LogInfo "collected social metrics"
               [FieldString "source"; FieldString "binance";
                FieldString "symbol"; FieldString symbol]])%list.
Proof.
  intros (order & Hperm & ->). simpl in Hperm.
  apply Permutation_length_1_inv in Hperm. subst order.
  split; reflexivity.
Qed.

Lemma CollectSocialMetrics_binance_only_test :
  fst (collectSocialMetricsIn
         [NewBinanceDataSource (fun _ => (None, None))
            (fun _ => (None, None))] "BTCUSDT" [])
  = (None, Some errSocialMetrics).
Proof.
  apply (CollectSocialMetrics_binance_only
           (fun _ => (None, None)) (fun _ => (None, None)) "BTCUSDT" []).
  exists [NewBinanceDataSource (fun _ => (None, None))
            (fun _ => (None, None))].
  split; [apply Permutation_refl|reflexivity].
Defined.

End SocialFacts.

(** * The handlers of the program *)

Module SystemFacts.

Import Models Trading Risk RiskTerms RiskMoreTerms Ai Configs Orchestrator.
Import SystemTerms Float64 Float64Facts Float64More.

(** ** The social score *)

Lemma calculateSocialScore_from (entries : list (string * float))
    (start : float) :
  fold_left
    (fun (score : float) (entry : string * float) =>
       match weights !! fst entry with
       | Some weight => (score + snd entry * weight)%float
       | None => score
       end) (filter weighted entries) start =
  fold_left
    (fun (score : float) (entry : string * float) =>
       match weights !! fst entry with
       | Some weight => (score + snd entry * weight)%float
       | None => score
       end) entries start.
Proof.
  revert start. induction entries as [|entry rest IH]; intros start.
  - reflexivity.
  - rewrite filter_cons. unfold weighted at 1.
    destruct (decide (is_Some (weights !! entry.1))) as [Hw|Hw].
    + simpl. apply IH.
    + simpl. rewrite IH.
      destruct (weights !! entry.1) as [w|] eqn:E; [|reflexivity].
      exfalso. apply Hw. exists w. reflexivity.
Qed.

(** [calculateSocialScore] reads four platforms only: the entries of the
    other platforms change nothing, and a map without any of the four
    scores zero. *)
Theorem calculateSocialScore_weighted_only
    (entries : list (string * float)) :
  calculateSocialScore entries =
    calculateSocialScore (filter weighted entries) /\
  (Forall (fun entry => ~ weighted entry) entries ->
   calculateSocialScore entries = 0%float).
Proof.
  unfold calculateSocialScore. split.
  - symmetry. apply calculateSocialScore_from.
  - intros H. rewrite <- calculateSocialScore_from.
    replace (filter weighted entries) with (@nil (string * float));
      [reflexivity|].
    induction H as [|entry rest Hentry _ IH]; [reflexivity|].
    rewrite filter_cons.
    destruct (decide (weighted entry)); [contradiction|exact IH].
Qed.

(** The platforms of the spec's example have no weight. *)
Lemma calculateSocialScore_weighted_only_test :
  calculateSocialScore [("twitter", 1%float); ("reddit", 2%float)]
  = 0%float.
Proof.
  apply calculateSocialScore_weighted_only.
  constructor; [intros [w H]; vm_compute in H; discriminate H|].
  constructor; [intros [w H]; vm_compute in H; discriminate H|].
  constructor.
Defined.

(** ** The conversion of the metrics *)

(** [convertSocialMetricsToMap] keeps the keys: each metric is replaced by
    its formatted text, under the same key, and nothing else is in the
    result. *)
Theorem convertSocialMetricsToMap_keys
    (FormatFloat2 : float -> string) (metrics : gmap string float) :
  convertSocialMetricsToMap FormatFloat2 metrics = FormatFloat2 <$> metrics
  /\
  (forall k : string,
     convertSocialMetricsToMap FormatFloat2 metrics !! k =
     FormatFloat2 <$> (metrics !! k)) /\
  size (convertSocialMetricsToMap FormatFloat2 metrics) = size metrics.
Proof.
  assert (H : convertSocialMetricsToMap FormatFloat2 metrics
              = FormatFloat2 <$> metrics).
  { unfold convertSocialMetricsToMap.
    apply (map_fold_weak_ind
             (fun (r : gmap string string) (m : gmap string float) =>
                r = FormatFloat2 <$> m)).
    - rewrite fmap_empty. reflexivity.
    - intros k v m r _ ->. rewrite fmap_insert. reflexivity. }
  split; [exact H|]. split.
  - intros k. rewrite H. apply lookup_fmap.
  - rewrite H. apply map_size_fmap.
Qed.

Section HandlerFacts.

Variable FormatFloat2 : float -> string.
Variable rangeOrder : gmap string float -> list (string * float).
Variable now : Time.
Variable s : QuantSystem.

(** ** The amount of an order *)


(** ** The closing of positions *)

(** [emergencyClose] and [reducePosition] pass at most one order to the
    executor, and only for a balance above zero: a market order that
    sells the whole balance, or half of it.  When the balance cannot be
    read they return its error and place nothing. *)
Theorem closing_orders (symbol : string) :
  (forall (balance : float) (err : error),
     GetBalance (tradeExecutor s) symbol = (balance, Some err) ->
     emergencyClose s symbol = (Some err, []) /\
     reducePosition s symbol = (Some err, [])) /\
  (forall balance : float,
     GetBalance (tradeExecutor s) symbol = (balance, None) ->
     (0 <? balance)%float = true ->
     emergencyClose s symbol =
       (PlaceOrder (tradeExecutor s) (sellOrder symbol balance),
        [sellOrder symbol balance]) /\
     reducePosition s symbol =
       (PlaceOrder (tradeExecutor s) (sellOrder symbol (balance * 0.5)),
        [sellOrder symbol (balance * 0.5)])) /\
  (forall balance : float,
     GetBalance (tradeExecutor s) symbol = (balance, None) ->
     (0 <? balance)%float = false ->
     emergencyClose s symbol = (None, []) /\
     reducePosition s symbol = (None, [])) /\
  (length (snd (emergencyClose s symbol)) <= 1)%nat /\
  (length (snd (reducePosition s symbol)) <= 1)%nat.
Proof.
  unfold emergencyClose, reducePosition.
  destruct (GetBalance (tradeExecutor s) symbol) as [b [e|]] eqn:E.
  - split; [|split; [|split; [|split]]].
    + intros balance err H. injection H as <- <-. split; reflexivity.
    + intros balance H. discriminate H.
    + intros balance H. discriminate H.
    + simpl. lia.
    + simpl. lia.
  - split; [intros balance err H; discriminate H|].
    destruct (0 <? b)%float eqn:Hb.
    + split; [|split; [|split; simpl; lia]].
      * intros balance H _. injection H as <-. split; reflexivity.
      * intros balance H Hn. injection H as <-. rewrite Hb in Hn.
        discriminate Hn.
    + split; [|split; [|split; simpl; lia]].
      * intros balance H Hn. injection H as <-. rewrite Hb in Hn.
        discriminate Hn.
      * intros balance H _. split; reflexivity.
Qed.

(** ** The handling of alerts *)

Lemma getSeverityLevel_upper (pnl : float) :
  getSeverityLevel pnl = "HIGH" \/ getSeverityLevel pnl = "MEDIUM" \/
  getSeverityLevel pnl = "LOW".
Proof.
  unfold getSeverityLevel.
  destruct (pnl <? -10000)%float; [left; reflexivity|].
  destruct (pnl <? -5000)%float; [right; left|right; right]; reflexivity.
Qed.

Lemma alertsDue_severity (rm : BasicRiskManager) (t : Time)
    (positions : list Position) (alert : RiskAlert) :
  In alert (alertsDue rm t positions) ->
  exists pos : Position,
    In pos positions /\ alert = alertFor t pos /\
    (UnrealizedPnL pos <? - MaxLossPerTrade (params rm))%float = true.
Proof.
  unfold alertsDue. intros H. apply in_flat_map in H.
  destruct H as (pos & Hpos & H). exists pos.
  destruct (UnrealizedPnL pos <? - MaxLossPerTrade (params rm))%float;
    [|destruct H].
  destruct H as [<-|[]]. split; [exact Hpos|]. split; reflexivity.
Qed.

(** [handleRiskAlert] closes or reduces a position only for the severities
    spelled ["high"] and ["medium"].  The monitor spells its severities
    ["HIGH"], ["MEDIUM"] and ["LOW"]: for every alert it builds, whatever
    the loss, the handler places no order and returns no error. *)
Theorem handleRiskAlert_of_monitor
    (rm : BasicRiskManager) (t : Time) (positions : list Position)
    (alert : RiskAlert) :
  (snd (handleRiskAlert s alert) <> [] ->
   Severity alert = "high" \/ Severity alert = "medium") /\
  (In alert (alertsDue rm t positions) ->
   handleRiskAlert s alert = (None, [])) /\
  (forall pos : Position, handleRiskAlert s (alertFor t pos) = (None, [])).
Proof.
  assert (Hpos : forall pos, handleRiskAlert s (alertFor t pos) = (None, [])).
  { intros pos. unfold handleRiskAlert, alertFor. cbn [Severity].
    destruct (getSeverityLevel_upper (UnrealizedPnL pos)) as [H|[H|H]];
      rewrite H; reflexivity. }
  split; [|split; [|exact Hpos]].
  - unfold handleRiskAlert.
    destruct (String.eqb (Severity alert) "high") eqn:Eh.
    + intros _. left. apply String.eqb_eq. exact Eh.
    + destruct (String.eqb (Severity alert) "medium") eqn:Em.
      * intros _. right. apply String.eqb_eq. exact Em.
      * intros H. exfalso. apply H. reflexivity.
  - intros H. apply alertsDue_severity in H.
    destruct H as (pos & _ & -> & _). apply Hpos.
Qed.

(** ** The handling of a snapshot *)



(** When the social metrics cannot be collected the handler places no
    order and returns an error.  That is always so for a system whose
    collector is the multi-source collector over the source of Binance
    alone, as the program builds it: the snapshots it receives never lead
    to a trade. *)
Theorem handleMarketData_without_social_metrics (data : MarketData) :
  (forall (metrics : gmap string float) (e : error),
     dcCollectSocialMetrics (dataCollector s) (MdSymbol data)
       = (metrics, Some e) ->
     snd (handleMarketData FormatFloat2 rangeOrder now s data) = [] /\
     exists e' : error,
       fst (handleMarketData FormatFloat2 rangeOrder now s data)
         = Returns (Some e')) /\
  (forall (tokenInfo : string -> option TokenInfo * option error)
          (marketData : string -> option MarketData * option error),
     backedBy
       (Collector.NewMultiSourceCollector
          [MarketFeed.NewBinanceDataSource tokenInfo marketData])
       (dataCollector s) ->
     snd (handleMarketData FormatFloat2 rangeOrder now s data) = [] /\
     exists e' : error,
       fst (handleMarketData FormatFloat2 rangeOrder now s data)
         = Returns (Some e')).
Proof.
  assert (Herr : forall (metrics : gmap string float) (e : error),
     dcCollectSocialMetrics (dataCollector s) (MdSymbol data)
       = (metrics, Some e) ->
     snd (handleMarketData FormatFloat2 rangeOrder now s data) = [] /\
     exists e' : error,
       fst (handleMarketData FormatFloat2 rangeOrder now s data)
         = Returns (Some e')).
  { intros metrics e H. unfold handleMarketData. rewrite H.
    destruct (SaveMarketData (dataStorage s) data) as [e1|];
      [split; [reflexivity|exists e1; reflexivity]|].
    destruct (dcCollectTokenInfo (dataCollector s) (MdSymbol data))
      as [tokenInfo [e2|]];
      [split; [reflexivity|exists e2; reflexivity]|].
    split; [reflexivity|exists e; reflexivity]. }
  split; [exact Herr|].
  intros tokenInfo marketData Hback.
  destruct (Hback (MdSymbol data)) as (log & res & Hres & Hdc).
  destruct Hres as (order & Hperm & ->). simpl in Hperm.
  apply Permutation_length_1_inv in Hperm. subst order.
  apply (Herr ∅ Collector.errSocialMetrics). exact Hdc.
Qed.

End HandlerFacts.

(** A balance of 4: sold whole by [emergencyClose], half of it by
    [reducePosition], nothing when it is zero. *)
Lemma closing_orders_test :
  emergencyClose (sampleSystem (sampleCollector ∅ None)) "BTC" =
    (None, [sellOrder "BTC" 4]) /\
  reducePosition (sampleSystem (sampleCollector ∅ None)) "BTC" =
    (None, [sellOrder "BTC" 2]).
Proof.
  destruct (closing_orders (sampleSystem (sampleCollector ∅ None)) "BTC")
    as (_ & Hsell & _).
  destruct (Hsell 4%float) as [He Hr]; [reflexivity|reflexivity|].
  split; [exact He|exact Hr].
Defined.

(** The monitor's alert for a loss of 15000 on the test's engine: the
    severity is HIGH and the handler does nothing. *)
Lemma handleRiskAlert_of_monitor_test :
  In (alertFor 7 (losingPosition "BTC" (-15000)))
     (alertsDue testManager 7 [losingPosition "BTC" (-15000)]) /\
  handleRiskAlert (sampleSystem (sampleCollector ∅ None))
    (alertFor 7 (losingPosition "BTC" (-15000))) = (None, []).
Proof.
  assert (H : In (alertFor 7 (losingPosition "BTC" (-15000)))
                (alertsDue testManager 7 [losingPosition "BTC" (-15000)])).
  { left. reflexivity. }
  split; [exact H|].
  destruct (handleRiskAlert_of_monitor
              (sampleSystem (sampleCollector ∅ None)) testManager 7
              [losingPosition "BTC" (-15000)]
              (alertFor 7 (losingPosition "BTC" (-15000))))
    as (_ & Hdue & _).
  apply Hdue. exact H.
Defined.


Lemma handleMarketData_without_social_metrics_test :
  snd (handleMarketData noFormat sampleRange 0
         (sampleSystem (sampleCollector ∅ (Some Collector.errSocialMetrics)))
         sampleData) = [].
Proof.
  destruct (handleMarketData_without_social_metrics noFormat sampleRange 0
              (sampleSystem
                 (sampleCollector ∅ (Some Collector.errSocialMetrics)))
              sampleData) as [Herr _].
  apply (Herr ∅ Collector.errSocialMetrics). reflexivity.
Defined.

End SystemFacts.

(** * The executor of Binance *)

Module ExecutorFacts.

Import Trading BinanceExecutor ExecutorTerms.

Section ExecutorProps.

Variable FormatFloat : float -> string.
Variable FormatInt : Z -> string.
Variable ParseInt : string -> Z + error.
Variable ParseFloat : string -> float + error.
Variable Do : CreateOrderRequest -> CreateOrderResponse + error.
Variable DoCancel : CancelOrderRequest -> option error.
Variable GetAccount : list Balance + error.

Lemma typeSupported_eqb (order : Order) :
  typeSupported order <->
  String.eqb (Trading.OrderType order) "market"
  || String.eqb (Trading.OrderType order) "limit" = true.
Proof.
  unfold typeSupported. rewrite orb_true_iff, !String.eqb_eq. reflexivity.
Qed.

Lemma sideValid_eqb (order : Order) :
  sideValid order <->
  String.eqb (Side order) "buy" || String.eqb (Side order) "sell" = true.
Proof.
  unfold sideValid. rewrite orb_true_iff, !String.eqb_eq. reflexivity.
Qed.

(** [PlaceOrder] refuses an order whose type is neither market nor limit,
    or whose side is neither buy nor sell, before anything is sent to the
    exchange, the type being looked at first; an order is sent exactly
    when both are valid, and then once.  Whenever [PlaceOrder] returns an
    error the order is left as it was. *)
Theorem PlaceOrder_validates (order : Order) :
  (~ typeSupported order ->
   PlaceOrder FormatFloat FormatInt Do order =
   (order,
    Some (String.append "unsupported order type: "
            (Trading.OrderType order)), [])) /\
  (typeSupported order -> ~ sideValid order ->
   PlaceOrder FormatFloat FormatInt Do order =
   (order, Some (String.append "invalid side: " (Side order)), [])) /\
  (typeSupported order /\ sideValid order <->
   length (snd (PlaceOrder FormatFloat FormatInt Do order)) = 1%nat) /\
  (length (snd (PlaceOrder FormatFloat FormatInt Do order)) <= 1)%nat /\
  (forall e : error,
     snd (fst (PlaceOrder FormatFloat FormatInt Do order)) = Some e ->
     fst (fst (PlaceOrder FormatFloat FormatInt Do order)) = order).
Proof.
  rewrite typeSupported_eqb, sideValid_eqb. unfold PlaceOrder.
  destruct (String.eqb (Trading.OrderType order) "market") eqn:Em;
    [|destruct (String.eqb (Trading.OrderType order) "limit") eqn:El];
    (destruct (String.eqb (Side order) "buy") eqn:Eb;
     [|destruct (String.eqb (Side order) "sell") eqn:Es]);
    cbn [orb];
    try match goal with
        | |- context [Do ?r] => destruct (Do r) as [result|err]
        end;
    cbn [fst snd length];
    repeat split;
    try (intros; exfalso; auto; fail);
    try (intros; discriminate; fail);
    try (intros [? ?]; discriminate; fail);
    try (intros; reflexivity); try lia.
Qed.

(** For a valid order [PlaceOrder] sends one request, for the symbol and
    with the formatted amount of the order; the request carries a price,
    good till cancelled, exactly for a limit order.  When the exchange
    answers, the order takes its status and its identifier, as a number
    and as text, and keeps its other fields; when the exchange fails, the
    error is returned and the order is left as it was. *)
Theorem PlaceOrder_sends (order : Order) :
  typeSupported order -> sideValid order ->
  exists request : CreateOrderRequest,
    snd (PlaceOrder FormatFloat FormatInt Do order) = [request] /\
    reqSymbol request = Symbol order /\
    reqQuantity request = FormatFloat (Amount order) /\
    (reqSide request = SideTypeBuy <-> Side order = "buy") /\
    (Trading.OrderType order = "limit" ->
     Trading.OrderType order <> "market" ->
     reqType request = OrderTypeLimit /\
     reqPrice request = Some (FormatFloat (Price order)) /\
     reqTimeInForce request = Some TimeInForceTypeGTC) /\
    (Trading.OrderType order = "market" ->
     reqType request = OrderTypeMarket /\
     reqPrice request = None /\ reqTimeInForce request = None) /\
    fst (PlaceOrder FormatFloat FormatInt Do order) =
      match Do request with
      | inl result => (placed FormatInt order result, None)
      | inr err =>
          (order, Some (String.append "failed to place order: " err))
      end.
Proof.
  rewrite typeSupported_eqb, sideValid_eqb. unfold PlaceOrder, placed.
  intros Ht Hs.
  destruct (String.eqb (Trading.OrderType order) "market") eqn:Em;
    [|destruct (String.eqb (Trading.OrderType order) "limit") eqn:El;
      [|discriminate Ht]];
    (destruct (String.eqb (Side order) "buy") eqn:Eb;
     [|destruct (String.eqb (Side order) "sell") eqn:Es;
       [|discriminate Hs]]);
    eexists;
    (split;
     [match goal with
      | |- context [Do ?r] => destruct (Do r); reflexivity
      end|]);
    cbn [reqSymbol reqQuantity reqSide reqType reqPrice reqTimeInForce];
    (split; [reflexivity|]); (split; [reflexivity|]);
    (split;
     [split; intros H; try reflexivity; try discriminate H;
      try (apply String.eqb_eq; exact Eb);
      try (rewrite H in Eb; discriminate Eb)|]);
    (split;
     [intros H Hn; try (repeat split; reflexivity);
      try (apply String.eqb_eq in Em; contradiction)|]);
    (split;
     [intros H; try (repeat split; reflexivity);
      try (rewrite H in Em; discriminate Em)|]);
    match goal with
    | |- context [Do ?r] => destruct (Do r); reflexivity
    end.
Qed.

(** An order placed can be cancelled by the identifier it was given: when
    the text of the identifier parses back to the number, [CancelOrder]
    asks the exchange to cancel the order of that number.  An identifier
    that does not parse is refused before anything is sent. *)
Theorem CancelOrder_of_placed (order : Order)
    (result : CreateOrderResponse) (symbol : string) :
  (ParseInt (FormatInt (respOrderID result)) = inl (respOrderID result) ->
   snd (CancelOrder ParseInt DoCancel symbol
          (OrderID (placed FormatInt order result))) =
   [{| cancelSymbol := symbol;
       cancelOrderID := RawOrderID (placed FormatInt order result) |}]) /\
  (forall (orderID : string) (err : error),
     ParseInt orderID = inr err ->
     CancelOrder ParseInt DoCancel symbol orderID =
     (Some (String.append "invalid order ID: " err), [])).
Proof.
  unfold CancelOrder, placed. cbn [OrderID RawOrderID]. split.
  - intros ->. destruct (DoCancel _); reflexivity.
  - intros orderID err ->. reflexivity.
Qed.

(** [GetBalance] answers with the first balance of the account that is in
    the asset asked for: its free amount, or the error of its parsing,
    the balances after it not being read.  It answers that no balance
    was found exactly when the account has none in that asset. *)
Theorem GetBalance_first_match (balances : list Balance) (symbol : string) :
  GetAccount = inl balances ->
  (forall (before after : list Balance) (balance : Balance),
     balances = (before ++ balance :: after)%list ->
     Forall (fun b => Asset b <> symbol) before ->
     Asset balance = symbol ->
     GetBalance ParseFloat GetAccount symbol =
     match ParseFloat (Free balance) with
     | inl free => (free, None)
     | inr err =>
         (0%float, Some (String.append "failed to parse balance: " err))
     end) /\
  (GetBalance ParseFloat GetAccount symbol =
     (0%float,
      Some (String.append "balance not found for symbol: " symbol)) <->
   Forall (fun b => Asset b <> symbol) balances).
Proof.
  intros Hacc. unfold GetBalance. rewrite Hacc. clear Hacc. split.
  - intros before after balance -> Hbefore Hasset.
    induction Hbefore as [|b before Hb _ IH]; simpl.
    + rewrite (proj2 (String.eqb_eq _ _) Hasset). reflexivity.
    + rewrite (proj2 (String.eqb_neq _ _) Hb). exact IH.
  - induction balances as [|b rest IH]; simpl.
    + split; [constructor|reflexivity].
    + destruct (String.eqb (Asset b) symbol) eqn:E.
      * apply String.eqb_eq in E. split.
        -- destruct (ParseFloat (Free b)); intros H; discriminate H.
        -- intros H. inversion H. contradiction.
      * apply String.eqb_neq in E. rewrite IH. split.
        -- intros H. constructor; assumption.
        -- intros H. inversion H. assumption.
Qed.

(** The orders with which the program closes or reduces a position pass
    the validation: each reaches the exchange as one market order to
    sell, without a price.  The order the program builds from a snapshot
    and a prediction has no side when the predicted price is within the
    tolerance of the current one, and the executor refuses it: it returns
    the error of the type or of the side, and nothing reaches the
    exchange. *)
Theorem PlaceOrder_of_program (symbol : string) (amount : float)
    (s : Orchestrator.QuantSystem) (data : Models.MarketData)
    (prediction : Ai.PricePrediction) :
  snd (PlaceOrder FormatFloat FormatInt Do
         (Orchestrator.sellOrder symbol amount)) =
    [{| reqSymbol := symbol; reqSide := SideTypeSell;
        reqType := OrderTypeMarket; reqQuantity := FormatFloat amount;
        reqTimeInForce := None; reqPrice := None |}] /\
  ((Models.MdPrice data
      * (1 + Configs.PriceTolerance
               (Configs.CfgTrading (Orchestrator.config s)))
      <? Ai.PredictedPrice prediction)%float = false ->
   (Ai.PredictedPrice prediction
      <? Models.MdPrice data
         * (1 - Configs.PriceTolerance
                  (Configs.CfgTrading (Orchestrator.config s))))%float
     = false ->
   snd (PlaceOrder FormatFloat FormatInt Do
          (SystemTerms.builtOrder s data prediction)) = [] /\
   exists e : error,
     fst (PlaceOrder FormatFloat FormatInt Do
            (SystemTerms.builtOrder s data prediction)) =
     (SystemTerms.builtOrder s data prediction, Some e)).
Proof.
  split.
  - unfold PlaceOrder, Orchestrator.sellOrder. simpl.
    destruct (Do _); reflexivity.
  - intros Hup Hdown.
    assert (Hs : Side (SystemTerms.builtOrder s data prediction) = "").
    { unfold SystemTerms.builtOrder, Orchestrator.determineOrderSide.
      cbn [Side]. rewrite Hup, Hdown. reflexivity. }
    unfold PlaceOrder. rewrite Hs.
    destruct (String.eqb
                (Trading.OrderType
                   (SystemTerms.builtOrder s data prediction)) "market");
      [|destruct (String.eqb
                    (Trading.OrderType
                       (SystemTerms.builtOrder s data prediction))
                    "limit")];
      (split; [reflexivity|eexists; reflexivity]).
Qed.

End ExecutorProps.

(** A limit order to buy, and an order of an unknown type. *)
Lemma PlaceOrder_validates_test :
  PlaceOrder sampleFormatFloat sampleFormatInt sampleDo
    (RiskTerms.testOrder 4 "stop") =
  (RiskTerms.testOrder 4 "stop", Some "unsupported order type: stop", []).
Proof.
  apply (PlaceOrder_validates sampleFormatFloat sampleFormatInt sampleDo
           (RiskTerms.testOrder 4 "stop")).
  intros [H|H]; discriminate H.
Defined.

Lemma PlaceOrder_sends_test :
  exists request : CreateOrderRequest,
    snd (PlaceOrder sampleFormatFloat sampleFormatInt sampleDo
           (RiskTerms.testOrder 4 "limit")) = [request] /\
    reqQuantity request = "4" /\
    fst (PlaceOrder sampleFormatFloat sampleFormatInt sampleDo
           (RiskTerms.testOrder 4 "limit")) =
    (placed sampleFormatInt (RiskTerms.testOrder 4 "limit")
       {| respStatus := "FILLED"; respOrderID := 42 |}, None).
Proof.
  destruct (PlaceOrder_sends sampleFormatFloat sampleFormatInt sampleDo
              (RiskTerms.testOrder 4 "limit"))
    as (request & Hsent & _ & Hq & _ & _ & _ & Hres).
  - right. reflexivity.
  - left. reflexivity.
  - exists request. split; [exact Hsent|]. split; [exact Hq|exact Hres].
Defined.

Lemma CancelOrder_of_placed_test :
  snd (CancelOrder sampleParseInt (fun _ => None) "BTCUSDT"
         (OrderID (placed sampleFormatInt (RiskTerms.testOrder 4 "limit")
                     {| respStatus := "FILLED"; respOrderID := 42 |}))) =
  [{| cancelSymbol := "BTCUSDT"; cancelOrderID := 42 |}].
Proof.
  apply (CancelOrder_of_placed sampleFormatInt sampleParseInt
           (fun _ => None) (RiskTerms.testOrder 4 "limit")
           {| respStatus := "FILLED"; respOrderID := 42 |} "BTCUSDT").
  reflexivity.
Defined.

Lemma GetBalance_first_match_test :
  GetBalance sampleParseFloat sampleAccount "BTC" = (0.5%float, None) /\
  GetBalance sampleParseFloat sampleAccount "SOL" =
    (0%float, Some "balance not found for symbol: SOL").
Proof.
  split.
  - destruct (GetBalance_first_match sampleParseFloat sampleAccount
                _ "BTC" eq_refl) as [Hfirst _].
    rewrite (Hfirst [ {| Asset := "ETH"; Free := "3" |} ]
               [ {| Asset := "BTC"; Free := "9" |} ]
               {| Asset := "BTC"; Free := "0.5" |}).
    + reflexivity.
    + reflexivity.
    + constructor; [discriminate|constructor].
    + reflexivity.
  - apply (GetBalance_first_match sampleParseFloat sampleAccount
             _ "SOL" eq_refl).
    repeat (constructor; [discriminate|]). constructor.
Defined.

(** The executor refuses the limit order the program builds for a price
    of 100 and a prediction of 100.5, under a tolerance of 0.01. *)
Lemma PlaceOrder_of_program_test :
  snd (PlaceOrder sampleFormatFloat sampleFormatInt sampleDo
         (SystemTerms.builtOrder
            (SystemTerms.sampleSystem (SystemTerms.sampleCollector ∅ None))
            SystemTerms.sampleData SystemTerms.flatPrediction)) = [] /\
  exists e : error,
    fst (PlaceOrder sampleFormatFloat sampleFormatInt sampleDo
           (SystemTerms.builtOrder
              (SystemTerms.sampleSystem
                 (SystemTerms.sampleCollector ∅ None))
              SystemTerms.sampleData SystemTerms.flatPrediction)) =
    (SystemTerms.builtOrder
       (SystemTerms.sampleSystem (SystemTerms.sampleCollector ∅ None))
       SystemTerms.sampleData SystemTerms.flatPrediction, Some e).
Proof.
  destruct (PlaceOrder_of_program sampleFormatFloat sampleFormatInt sampleDo
              "" 0%float
              (SystemTerms.sampleSystem (SystemTerms.sampleCollector ∅ None))
              SystemTerms.sampleData SystemTerms.flatPrediction)
    as [_ H].
  apply H; vm_compute; reflexivity.
Defined.

End ExecutorFacts.
